(** * matlab-dtts: dispatch logic of the dtt1D and dtt2D MEX gateways

    A shallow embedding of [src/dtt1D.cpp] and [src/dtt2D.cpp].  Both files
    consist of one gateway routine, [mexFunction], which validates its MATLAB
    arguments, selects an FFTW real-to-real kind from the numeric DTT type,
    derives the plan geometry (1D only) and then plans, executes and destroys
    one FFTW plan.

    The embedding keeps the order of the statements of the source.  Calls
    into MATLAB's MEX interface and into FFTW are recorded, in order, in a
    trace of events; [mexErrMsgTxt] ends the run with its message. *)

From Stdlib Require Import ZArith List String Bool Lia.
From Stdlib Require Import Floats.SpecFloat.
Import ListNotations.

Local Open Scope Z_scope.

(** ** Machine numbers *)

(** A C [double].  [spec_float] is the Standard Library's description of an
    IEEE 754 datum: signed zeros, infinities, NaN, and the finite numbers
    [(-1)^s * m * 2^e]. *)
Definition double : Type := spec_float.

(** IEEE 754 binary64: 53 bits of precision, exponents below 1024. *)
Definition is_binary64 (d : double) : bool := valid_binary 53 1024 d.

Definition INT_MIN : Z := - 2 ^ 31.
Definition INT_MAX : Z := 2 ^ 31 - 1.

(** The integral part of a [double], towards zero; [None] for an infinity or
    a NaN.  [Z.shiftl] with a negative shift divides, and on the positive
    mantissa flooring is truncation. *)
Definition trunc (d : double) : option Z :=
  match d with
  | S754_zero _ => Some 0
  | S754_finite s m e =>
      let a := Z.shiftl (Z.pos m) e in
      Some (if s then - a else a)
  | S754_infinity _ => None
  | S754_nan => None
  end.

(** The conversion of a [double] to a 32-bit [int], written [(int) x] or left
    implicit in the source: the fractional part is discarded, and the
    conversion is undefined ([None]) when the result does not fit. *)
Definition double_to_int (d : double) : option Z :=
  match trunc d with
  | Some z => if (INT_MIN <=? z) && (z <=? INT_MAX) then Some z else None
  | None => None
  end.

(** Whether a [double] holds a whole number. *)
Definition is_integral (d : double) : bool :=
  match d with
  | S754_zero _ => true
  | S754_finite _ m e =>
      (0 <=? e) || (Z.shiftl (Z.shiftl (Z.pos m) e) (- e) =? Z.pos m)
  | S754_infinity _ => false
  | S754_nan => false
  end.

(** The [double] holding the whole number [z]. *)
Definition int_to_double (z : Z) : double :=
  match z with
  | Z0 => S754_zero false
  | Zpos p => S754_finite false p 0
  | Zneg p => S754_finite true p 0
  end.

(** The conversion [(int) dims[i]] of an [mwSize] (64 bits, unsigned) to a
    32-bit [int]: the value modulo [2^32], read as two's complement. *)
Definition mwSize_to_int (z : Z) : Z := (z + 2 ^ 31) mod 2 ^ 32 - 2 ^ 31.

(** [int] multiplication as the hardware performs it, for [N = NX*NY]. *)
Definition int_mul (a b : Z) : Z := mwSize_to_int (a * b).

(** ** The MEX interface *)

(** Modelled from the spec: [matrix.h] and [mex.h], the host's headers, are
    not among the sources.  The host supplies real-valued buffers with
    explicit extents and numeric type codes; the class identifiers below are
    those of MATLAB's [matrix.h], of which the source names
    [mxDOUBLE_CLASS]. *)
Inductive mxClassID : Type :=
| mxUNKNOWN_CLASS | mxCELL_CLASS | mxSTRUCT_CLASS | mxLOGICAL_CLASS
| mxCHAR_CLASS | mxVOID_CLASS | mxDOUBLE_CLASS | mxSINGLE_CLASS
| mxINT8_CLASS | mxUINT8_CLASS | mxINT16_CLASS | mxUINT16_CLASS
| mxINT32_CLASS | mxUINT32_CLASS | mxINT64_CLASS | mxUINT64_CLASS
| mxFUNCTION_CLASS.

(** What the gateways observe of an [mxArray]: its class, its complexity
    flag, its dimension vector, and the storage behind [mxGetPr].  The source
    only ever reads that storage through a [double *], so [pr] is the storage
    as a sequence of doubles; for an array of another class it is whatever
    its bytes amount to under that reading, and it may hold fewer doubles
    than the array has elements. *)
Record mxArray : Type := mk_mxArray {
  classID : mxClassID;
  complexity : bool;
  dimensions : list Z;
  pr : list double
}.

Definition mxIsDouble (a : mxArray) : bool :=
  match classID a with mxDOUBLE_CLASS => true | _ => false end.

Definition mxIsComplex (a : mxArray) : bool := complexity a.

Definition mxGetNumberOfElements (a : mxArray) : Z :=
  fold_right Z.mul 1 (dimensions a).

Definition mxGetNumberOfDimensions (a : mxArray) : Z :=
  Z.of_nat (List.length (dimensions a)).

Definition mxGetDimensions (a : mxArray) : list Z := dimensions a.

Definition mxGetPr (a : mxArray) : list double := pr a.

(** A real double-precision array whose storage holds one double per element,
    as MATLAB builds them. *)
Definition real_double_array (a : mxArray) : Prop :=
  mxIsDouble a = true /\ mxIsComplex a = false /\
  Z.of_nat (List.length (pr a)) = mxGetNumberOfElements a.

(** ** FFTW *)

(** Modelled from the spec: [fftw3.h] is not among the sources.  A kernel
    kind is one of eight opaque tags, in one-to-one correspondence with the
    type codes; they carry the names of the eight constants that the source
    uses. *)
Inductive fftw_r2r_kind : Type :=
| FFTW_REDFT00 | FFTW_REDFT10 | FFTW_REDFT01 | FFTW_REDFT11
| FFTW_RODFT00 | FFTW_RODFT10 | FFTW_RODFT01 | FFTW_RODFT11.

Definition fftw_r2r_kind_eqb (a b : fftw_r2r_kind) : bool :=
  match a, b with
  | FFTW_REDFT00, FFTW_REDFT00 | FFTW_REDFT10, FFTW_REDFT10
  | FFTW_REDFT01, FFTW_REDFT01 | FFTW_REDFT11, FFTW_REDFT11
  | FFTW_RODFT00, FFTW_RODFT00 | FFTW_RODFT10, FFTW_RODFT10
  | FFTW_RODFT01, FFTW_RODFT01 | FFTW_RODFT11, FFTW_RODFT11 => true
  | _, _ => false
  end.

Definition all_kinds : list fftw_r2r_kind :=
  [FFTW_REDFT00; FFTW_REDFT10; FFTW_REDFT01; FFTW_REDFT11;
   FFTW_RODFT00; FFTW_RODFT10; FFTW_RODFT01; FFTW_RODFT11].

Inductive fftw_flags : Type := FFTW_ESTIMATE.

(** The pointers handed to the planner. *)
Inductive pointer : Type :=
| NULL
| input_ptr      (* mxGetPr(prhs[0]) *)
| output_ptr.    (* mxGetPr(output_mat) *)

(** The calls a gateway makes that allocate, plan or transform, with their
    arguments in the order of the C prototypes. *)
Inductive event : Type :=
| mxCreateNumericArray (numdims : Z) (dims : list Z)
    (class : mxClassID) (complex : bool)
| fftw_malloc
| fftw_plan_many_r2r (rank : Z) (n : list Z) (howmany : Z)
    (inp : pointer) (inembed : pointer) (istride idist : Z)
    (out : pointer) (onembed : pointer) (ostride odist : Z)
    (kind : list fftw_r2r_kind) (flags : fftw_flags)
| fftw_plan_r2r_2d (n0 n1 : Z) (inp out : pointer)
    (kind0 kind1 : fftw_r2r_kind) (flags : fftw_flags)
| fftw_execute
| fftw_destroy_plan
| fftw_free.

(** ** Runs of a gateway *)

(** How a run ends: it returns, [mexErrMsgTxt] aborts it with a message, or
    it does something C++ leaves undefined (a read outside an object, a
    conversion whose result does not fit). *)
Inductive outcome (A : Type) : Type :=
| Returned (a : A)
| Error (msg : string)
| Undefined.

Arguments Returned {A} a.
Arguments Error {A} msg.
Arguments Undefined {A}.

(** A computation threads the trace of events made so far, oldest first. *)
Definition mex (A : Type) : Type := list event -> outcome A * list event.

Definition ret {A : Type} (a : A) : mex A := fun tr => (Returned a, tr).

Definition bind {A B : Type} (m : mex A) (k : A -> mex B) : mex B :=
  fun tr =>
    match m tr with
    | (Returned a, tr') => k a tr'
    | (Error msg, tr') => (Error msg, tr')
    | (Undefined, tr') => (Undefined, tr')
    end.

Notation "x <- m ;; k" := (bind m (fun x => k))
  (at level 61, m at next level, right associativity).
Notation "m ;;; k" := (bind m (fun _ => k))
  (at level 61, right associativity).

Definition mexErrMsgTxt {A : Type} (msg : string) : mex A :=
  fun tr => (Error msg, tr).

Definition call (e : event) : mex unit := fun tr => (Returned tt, tr ++ [e]).

Definition defined {A : Type} (o : option A) : mex A :=
  match o with
  | Some a => ret a
  | None => fun tr => (Undefined, tr)
  end.

(** [if (c) mexErrMsgTxt(msg);] *)
Definition error_if (c : bool) (msg : string) : mex unit :=
  if c then mexErrMsgTxt msg else ret tt.

(** [prhs[i]] and [p[i]]: reads of C arrays. *)
Definition element {A : Type} (l : list A) (i : nat) : mex A :=
  defined (nth_error l i).

(** ** dtt1D.cpp *)

Module dtt1D.

(** The variables set by the [switch (DIM)] and passed to
    [fftw_plan_many_r2r]; [n0] is [n[0]]. *)
Record plan_variables : Type := mk_plan_variables {
  n0 : Z;
  howmany : Z;
  idist : Z;
  odist : Z;
  istride : Z;
  ostride : Z
}.

(** Lines 76-78: the value check on [DTT_type]. *)
Definition check_DTT_type (DTT_type : Z) : mex unit :=
  error_if
    (negb ((DTT_type =? 1) || (DTT_type =? 2) || (DTT_type =? 3)
           || (DTT_type =? 4) || (DTT_type =? 5) || (DTT_type =? 6)
           || (DTT_type =? 7) || (DTT_type =? 8)))
    "Input for DTT_TYPE must be an integer between 1 and 8.".

(** Lines 85-104: the optional [DIM] argument.  [DIM] comes in with its
    default; the class and complexity tests of line 91 are made on
    [prhs[1]], the element count is that of [prhs[2]]. *)
Definition read_DIM (prhs : list mxArray) (nrhs DIM : Z) : mex Z :=
  if nrhs =? 3 then
    prhs1 <- element prhs 1 ;;
    prhs2 <- element prhs 2 ;;
    let check_el_num := mxGetNumberOfElements prhs2 in
    error_if
      (negb (mxIsDouble prhs1 && negb (mxIsComplex prhs1)
             && (check_el_num =? 1)))
      "Input for DIM must be real, scalar, and double precision." ;;;
    v <- element (mxGetPr prhs2) 0 ;;
    DIM <- defined (double_to_int v) ;;
    error_if (negb ((DIM =? 1) || (DIM =? 2)))
      "Input for DIM must be 1 or 2." ;;;
    ret DIM
  else ret DIM.

(** Lines 128-134: a single row or a single column fixes [DIM]. *)
Definition force_DIM (NX NY DIM : Z) : Z :=
  if NX =? 1 then 2
  else if NY =? 1 then 1
  else DIM.

(** Lines 152-169: the plan variables for the chosen [DIM]. *)
Definition define_plan_variables (NX NY DIM : Z) : mex plan_variables :=
  match DIM with
  | 1 =>
      (* perform DTT over columns of input array *)
      ret {| n0 := NX; howmany := NY; idist := NX; odist := NX;
             istride := 1; ostride := 1 |}
  | 2 =>
      (* perform DTT over rows of input array *)
      ret {| n0 := NY; howmany := NX; idist := 1; odist := 1;
             istride := NX; ostride := NX |}
  | _ => mexErrMsgTxt "Input for DIM must be 1 or 2."
  end.

(** Lines 178-188: the FFTW kind for the DTT type. *)
Definition set_DTT_type (DTT_type : Z) : mex fftw_r2r_kind :=
  match DTT_type with
  | 1 => ret FFTW_REDFT00
  | 2 => ret FFTW_REDFT10
  | 3 => ret FFTW_REDFT01
  | 4 => ret FFTW_REDFT11
  | 5 => ret FFTW_RODFT00
  | 6 => ret FFTW_RODFT10
  | 7 => ret FFTW_RODFT01
  | 8 => ret FFTW_RODFT11
  | _ => mexErrMsgTxt "Input for DTT_TYPE must be an integer between 1 and 8."
  end.

(** The gateway.  [nrhs] is the number of right-hand sides MATLAB passes,
    the length of [prhs]. *)
Definition mexFunction (nlhs : Z) (prhs : list mxArray) : mex unit :=
  let nrhs := Z.of_nat (List.length prhs) in
  let DIM := 1 in
  let rank := 1 in
  (* check number of inputs and outputs *)
  (if negb ((nrhs =? 2) || (nrhs =? 3))
   then mexErrMsgTxt "Two or three inputs are required."
   else if negb (nlhs =? 1)
   then mexErrMsgTxt "One output is required."
   else ret tt) ;;;
  (* check and allocate DTT type input *)
  prhs1 <- element prhs 1 ;;
  let check_el_num := mxGetNumberOfElements prhs1 in
  error_if
    (negb (mxIsDouble prhs1 && negb (mxIsComplex prhs1)
           && (check_el_num =? 1)))
    "Input for DTT_TYPE must be real, scalar, and double precision." ;;;
  v <- element (mxGetPr prhs1) 0 ;;
  DTT_type <- defined (double_to_int v) ;;
  check_DTT_type DTT_type ;;;
  (* check and allocate DIM input *)
  DIM <- read_DIM prhs nrhs DIM ;;
  (* check and allocate input and output arrays *)
  prhs0 <- element prhs 0 ;;
  error_if (negb (mxIsDouble prhs0 && negb (mxIsComplex prhs0)))
    "Input array must be double precision and real." ;;;
  let numdims := mxGetNumberOfDimensions prhs0 in
  error_if (numdims >? 2) "Input array must be 1D or 2D." ;;;
  let dims := mxGetDimensions prhs0 in
  let numelements := mxGetNumberOfElements prhs0 in
  dims0 <- element dims 0 ;;
  dims1 <- element dims 1 ;;
  let NX := mwSize_to_int dims0 in
  let NY := mwSize_to_int dims1 in
  let N := int_mul NX NY in
  let DIM := force_DIM NX NY DIM in
  call (mxCreateNumericArray numdims dims mxDOUBLE_CLASS false) ;;;
  (* define plan variables *)
  g <- define_plan_variables NX NY DIM ;;
  call fftw_malloc ;;;
  fKind0 <- set_DTT_type DTT_type ;;
  (* create and execute FFTW plan *)
  call (fftw_plan_many_r2r rank [n0 g] (howmany g)
          input_ptr NULL (istride g) (idist g)
          output_ptr NULL (ostride g) (odist g)
          [fKind0] FFTW_ESTIMATE) ;;;
  call fftw_execute ;;;
  (* cleanup *)
  call fftw_destroy_plan ;;;
  call fftw_free.

End dtt1D.

(** ** dtt2D.cpp *)

Module dtt2D.

(** Lines 73-83: a scalar DTT type is assigned to both directions; the
    result is [(DTT_type_x, DTT_type_y)]. *)
Definition assign_scalar (c : Z) : mex (fftw_r2r_kind * fftw_r2r_kind) :=
  match c with
  | 1 => ret (FFTW_REDFT00, FFTW_REDFT00)
  | 2 => ret (FFTW_REDFT10, FFTW_REDFT10)
  | 3 => ret (FFTW_REDFT01, FFTW_REDFT01)
  | 4 => ret (FFTW_REDFT11, FFTW_REDFT11)
  | 5 => ret (FFTW_RODFT00, FFTW_RODFT00)
  | 6 => ret (FFTW_RODFT10, FFTW_RODFT10)
  | 7 => ret (FFTW_RODFT01, FFTW_RODFT01)
  | 8 => ret (FFTW_RODFT11, FFTW_RODFT11)
  | _ => mexErrMsgTxt "Input for DTT_TYPE must be an integer between 1 and 8."
  end.

(** Lines 89-99: [DTT_type_x] from the first element. *)
Definition assign_x_direction (c : Z) : mex fftw_r2r_kind :=
  match c with
  | 1 => ret FFTW_REDFT00
  | 2 => ret FFTW_REDFT10
  | 3 => ret FFTW_REDFT01
  | 4 => ret FFTW_REDFT11
  | 5 => ret FFTW_RODFT00
  | 6 => ret FFTW_RODFT10
  | 7 => ret FFTW_RODFT01
  | 8 => ret FFTW_RODFT11
  | _ => mexErrMsgTxt "Input for DTT_TYPE must be an integer between 1 and 8."
  end.

(** Lines 102-112: [DTT_type_y] from the second element. *)
Definition assign_y_direction (c : Z) : mex fftw_r2r_kind :=
  match c with
  | 1 => ret FFTW_REDFT00
  | 2 => ret FFTW_REDFT10
  | 3 => ret FFTW_REDFT01
  | 4 => ret FFTW_REDFT11
  | 5 => ret FFTW_RODFT00
  | 6 => ret FFTW_RODFT10
  | 7 => ret FFTW_RODFT01
  | 8 => ret FFTW_RODFT11
  | _ => mexErrMsgTxt "Input for DTT_TYPE must be an integer between 1 and 8."
  end.

(** Lines 70-117: the DTT types for the two directions, by the number of
    elements of [prhs[1]]. *)
Definition assign_DTT_types (dtt_type_pointer : list double)
    (check_el_num : Z) : mex (fftw_r2r_kind * fftw_r2r_kind) :=
  if check_el_num =? 1 then
    v0 <- element dtt_type_pointer 0 ;;
    c0 <- defined (double_to_int v0) ;;
    assign_scalar c0
  else if check_el_num =? 2 then
    v0 <- element dtt_type_pointer 0 ;;
    c0 <- defined (double_to_int v0) ;;
    DTT_type_x <- assign_x_direction c0 ;;
    v1 <- element dtt_type_pointer 1 ;;
    c1 <- defined (double_to_int v1) ;;
    DTT_type_y <- assign_y_direction c1 ;;
    ret (DTT_type_x, DTT_type_y)
  else mexErrMsgTxt "Input for DTT_TYPE must be scalar or length 2.".

(** The gateway. *)
Definition mexFunction (nlhs : Z) (prhs : list mxArray) : mex unit :=
  let nrhs := Z.of_nat (List.length prhs) in
  (* check number of inputs and outputs *)
  (if negb (nrhs =? 2)
   then mexErrMsgTxt "Two inputs are required."
   else if negb (nlhs =? 1)
   then mexErrMsgTxt "One output is required."
   else ret tt) ;;;
  (* check and allocate DTT type input *)
  prhs1 <- element prhs 1 ;;
  error_if (negb (mxIsDouble prhs1 && negb (mxIsComplex prhs1)))
    "Input for DTT_TYPE must be real, and double precision." ;;;
  let dtt_type_pointer := mxGetPr prhs1 in
  let check_el_num := mxGetNumberOfElements prhs1 in
  types <- assign_DTT_types dtt_type_pointer check_el_num ;;
  let DTT_type_x := fst types in
  let DTT_type_y := snd types in
  (* check and allocate input and output arrays *)
  prhs0 <- element prhs 0 ;;
  error_if (negb (mxIsDouble prhs0 && negb (mxIsComplex prhs0)))
    "Input array must be double precision and real." ;;;
  let numdims := mxGetNumberOfDimensions prhs0 in
  error_if (negb (numdims =? 2)) "Input array must be 2D." ;;;
  let dims := mxGetDimensions prhs0 in
  let numelements := mxGetNumberOfElements prhs0 in
  dims0 <- element dims 0 ;;
  dims1 <- element dims 1 ;;
  let NX := mwSize_to_int dims0 in
  let NY := mwSize_to_int dims1 in
  call (mxCreateNumericArray numdims dims mxDOUBLE_CLASS false) ;;;
  (* create and execute FFTW plan *)
  call (fftw_plan_r2r_2d NY NX input_ptr output_ptr
          DTT_type_y DTT_type_x FFTW_ESTIMATE) ;;;
  call fftw_execute ;;;
  (* cleanup *)
  call fftw_destroy_plan.

End dtt2D.

(** ** Vocabulary of the specification *)

(** The two axes: [COLUMNS] is [DIM = 1], [ROWS] is [DIM = 2]. *)
Definition COLUMNS : Z := 1.
Definition ROWS : Z := 2.

(** The messages behind the specification's error kinds. *)
Definition InvalidTypeCode : string :=
  "Input for DTT_TYPE must be an integer between 1 and 8.".
Definition InvalidAxis : string := "Input for DIM must be 1 or 2.".
Definition ShapeMismatch_type_length : string :=
  "Input for DTT_TYPE must be scalar or length 2.".
Definition DIM_type_message : string :=
  "Input for DIM must be real, scalar, and double precision.".

(** The resolver of the specification: the forced [DIM], then the switch. *)
Definition resolve (NX NY requestedAxis : Z) : mex dtt1D.plan_variables :=
  dtt1D.define_plan_variables NX NY (dtt1D.force_DIM NX NY requestedAxis).

(** A run from the empty trace. *)
Definition run {A : Type} (m : mex A) : outcome A * list event := m [].

(** A scalar real double holding [v], as MATLAB passes a number. *)
Definition scalar (v : double) : mxArray :=
  {| classID := mxDOUBLE_CLASS; complexity := false;
     dimensions := [1; 1]; pr := [v] |}.

(** A real double vector of type codes. *)
Definition row_vector (vs : list double) : mxArray :=
  {| classID := mxDOUBLE_CLASS; complexity := false;
     dimensions := [1; Z.of_nat (List.length vs)]; pr := vs |}.

(** A real double matrix of the given extents and contents. *)
Definition matrix (NX NY : Z) (data : list double) : mxArray :=
  {| classID := mxDOUBLE_CLASS; complexity := false;
     dimensions := [NX; NY]; pr := data |}.

(** 2.9, 2.0 and 3.0 as binary64 numbers. *)
Definition d2_9 : double := S754_finite false 6530219459687219 (-51).
Definition d2_0 : double := S754_finite false 4503599627370496 (-51).
Definition d3_0 : double := S754_finite false 6755399441055744 (-51).

(** [T] with its storage replaced. *)
Definition with_pr (T : mxArray) (l : list double) : mxArray :=
  {| classID := classID T; complexity := complexity T;
     dimensions := dimensions T; pr := l |}.

(** [D] declared of another class and complexity, storage unchanged. *)
Definition with_class (D : mxArray) (cls : mxClassID) (cx : bool) : mxArray :=
  {| classID := cls; complexity := cx;
     dimensions := dimensions D; pr := pr D |}.

(** Element [i] of the storage of [T] converts to the [int] [c]. *)
Definition holds_code (T : mxArray) (i : nat) (c : Z) : Prop :=
  exists v, nth_error (mxGetPr T) i = Some v /\ double_to_int v = Some c.

(** The events of a completed 1D run. *)
Definition events1D (dims : list Z) (g : dtt1D.plan_variables)
    (k : fftw_r2r_kind) : list event :=
  [ mxCreateNumericArray 2 dims mxDOUBLE_CLASS false;
    fftw_malloc;
    fftw_plan_many_r2r 1 [dtt1D.n0 g] (dtt1D.howmany g)
      input_ptr NULL (dtt1D.istride g) (dtt1D.idist g)
      output_ptr NULL (dtt1D.ostride g) (dtt1D.odist g)
      [k] FFTW_ESTIMATE;
    fftw_execute; fftw_destroy_plan; fftw_free ].

(** The events of a completed 2D run: the planner receives [n0], [n1] and
    the kinds for them, in that order. *)
Definition events2D (dims : list Z) (n0 n1 : Z)
    (kind0 kind1 : fftw_r2r_kind) : list event :=
  [ mxCreateNumericArray 2 dims mxDOUBLE_CLASS false;
    fftw_plan_r2r_2d n0 n1 input_ptr output_ptr kind0 kind1 FFTW_ESTIMATE;
    fftw_execute; fftw_destroy_plan ].

(** How a run that leaves the trace alone can end. *)
Definition quiet {A : Type} (r : outcome A * list event) (tr : list event)
    (P : A -> Prop) : Prop :=
  (exists a, P a /\ r = (Returned a, tr))
  \/ (exists msg, r = (Error msg, tr))
  \/ r = (Undefined, tr).

(** * Properties *)

(** ** Numbers *)

Lemma mwSize_to_int_small (z : Z) :
  0 <= z <= INT_MAX -> mwSize_to_int z = z.
Proof.
  unfold mwSize_to_int, INT_MAX. intros H.
  rewrite Z.mod_small; lia.
Qed.

Lemma double_to_int_int_to_double (c : Z) :
  INT_MIN <= c <= INT_MAX -> double_to_int (int_to_double c) = Some c.
Proof.
  intros [Hlo Hhi]. unfold double_to_int.
  assert (Ht : trunc (int_to_double c) = Some c) by (destruct c; reflexivity).
  rewrite Ht.
  destruct (INT_MIN <=? c) eqn:E1; [| apply Z.leb_gt in E1; lia ].
  destruct (c <=? INT_MAX) eqn:E2; [| apply Z.leb_gt in E2; lia ].
  reflexivity.
Qed.

Example double_to_int_2_9 : double_to_int d2_9 = Some 2.
Proof. reflexivity. Qed.

Example d2_9_is_not_integral :
  is_integral d2_9 = false /\ is_binary64 d2_9 = true.
Proof. split; reflexivity. Qed.

(** ** The monad *)

Lemma bind_ret {A B : Type} (a : A) (k : A -> mex B) (tr : list event) :
  bind (ret a) k tr = k a tr.
Proof. reflexivity. Qed.

Lemma bind_error {A B : Type} (msg : string) (k : A -> mex B)
    (tr : list event) :
  bind (mexErrMsgTxt msg) k tr = (Error msg, tr).
Proof. reflexivity. Qed.

Lemma ret_inj {A : Type} (a b : A) : @ret A a = ret b -> a = b.
Proof.
  intros H. apply (f_equal (fun m => m [])) in H.
  unfold ret in H. congruence.
Qed.

Lemma ret_not_error {A : Type} (a : A) (msg : string) :
  @ret A a <> mexErrMsgTxt msg.
Proof.
  intros H. apply (f_equal (fun m => m [])) in H. discriminate H.
Qed.

(** ** The kind switches *)

(** The codes from 1 to 8, one by one. *)
Lemma code_cases (c : Z) :
  1 <= c <= 8 ->
  c = 1 \/ c = 2 \/ c = 3 \/ c = 4 \/ c = 5 \/ c = 6 \/ c = 7 \/ c = 8.
Proof. lia. Qed.

Ltac each_code c H :=
  destruct (code_cases c H) as [?|[?|[?|[?|[?|[?|[?|?]]]]]]]; subst c.

(** Every case analysis on a code outside 1..8 ends in the default. *)
Ltac default_case c :=
  destruct c as [|p|p]; try reflexivity; try lia;
  do 4 (try destruct p as [p|p|]); try reflexivity; lia.

Lemma set_DTT_type_total (c : Z) :
  1 <= c <= 8 -> exists k, dtt1D.set_DTT_type c = ret k.
Proof. intros H. each_code c H; eexists; reflexivity. Qed.

Lemma set_DTT_type_default (c : Z) :
  c < 1 \/ 8 < c ->
  dtt1D.set_DTT_type c = mexErrMsgTxt InvalidTypeCode.
Proof. intros H. default_case c. Qed.

Lemma set_DTT_type_range (c : Z) (k : fftw_r2r_kind) :
  dtt1D.set_DTT_type c = ret k -> 1 <= c <= 8.
Proof.
  intros H.
  destruct (Z_lt_ge_dec c 1) as [Hlo|Hlo];
    [ rewrite set_DTT_type_default in H by lia;
      symmetry in H; apply ret_not_error in H; contradiction |].
  destruct (Z_lt_ge_dec 8 c) as [Hhi|Hhi];
    [ rewrite set_DTT_type_default in H by lia;
      symmetry in H; apply ret_not_error in H; contradiction |].
  lia.
Qed.

Lemma check_DTT_type_valid (c : Z) :
  1 <= c <= 8 -> dtt1D.check_DTT_type c = ret tt.
Proof. intros H. each_code c H; reflexivity. Qed.

Lemma check_DTT_type_invalid (c : Z) :
  c < 1 \/ 8 < c ->
  dtt1D.check_DTT_type c = mexErrMsgTxt InvalidTypeCode.
Proof.
  intros H. unfold dtt1D.check_DTT_type.
  replace ((c =? 1) || (c =? 2) || (c =? 3) || (c =? 4) || (c =? 5)
           || (c =? 6) || (c =? 7) || (c =? 8))%bool with false;
    [ reflexivity |].
  symmetry. repeat (apply orb_false_intro); apply Z.eqb_neq; lia.
Qed.

Lemma assign_x_direction_eq (c : Z) :
  dtt2D.assign_x_direction c = dtt1D.set_DTT_type c.
Proof. reflexivity. Qed.

Lemma assign_y_direction_eq (c : Z) :
  dtt2D.assign_y_direction c = dtt1D.set_DTT_type c.
Proof. reflexivity. Qed.

Lemma assign_scalar_eq (c : Z) (tr : list event) :
  dtt2D.assign_scalar c tr
  = (k <- dtt1D.set_DTT_type c ;; ret (k, k)) tr.
Proof.
  destruct (Z_lt_ge_dec c 1) as [Hlo|Hlo]; [ default_case c |].
  destruct (Z_lt_ge_dec 8 c) as [Hhi|Hhi]; [ default_case c |].
  assert (H : 1 <= c <= 8) by lia.
  each_code c H; reflexivity.
Qed.

(** ** Stepping through a gateway *)

Lemma bind_call {B : Type} (e : event) (k : unit -> mex B)
    (tr : list event) :
  bind (call e) k tr = k tt (tr ++ [e]).
Proof. reflexivity. Qed.

Lemma bind_returned {A B : Type} (m : mex A) (k : A -> mex B) (a : A)
    (tr tr' : list event) :
  m tr = (Returned a, tr') -> bind m k tr = k a tr'.
Proof. intros H. unfold bind. rewrite H. reflexivity. Qed.

Lemma bind_failed {A B : Type} (m : mex A) (k : A -> mex B) (msg : string)
    (tr tr' : list event) :
  m tr = (Error msg, tr') -> bind m k tr = (Error msg, tr').
Proof. intros H. unfold bind. rewrite H. reflexivity. Qed.

(** Two runs that start alike and continue alike are alike. *)
Lemma bind_cong {A B : Type} (m : mex A) (k k' : A -> mex B)
    (tr : list event) :
  (forall a tr', k a tr' = k' a tr') -> bind m k tr = bind m k' tr.
Proof.
  intros H. unfold bind. destruct (m tr) as [[a|msg|] tr']; auto.
Qed.

Lemma element_found {A : Type} (l : list A) (i : nat) (a : A) :
  nth_error l i = Some a -> element l i = ret a.
Proof. intros H. unfold element. rewrite H. reflexivity. Qed.

Ltac mex_simpl :=
  repeat first
    [ rewrite bind_ret
    | rewrite bind_call
    | rewrite bind_error
    | progress cbn [defined error_if negb andb orb] ].

(** Reading a code depends on the stored double through its conversion
    only. *)
Lemma read_code_cong {B : Type} (l l' : list double) (i : nat)
    (k : Z -> mex B) (tr : list event) :
  map double_to_int l = map double_to_int l' ->
  (v <- element l i ;; c <- defined (double_to_int v) ;; k c) tr
  = (v <- element l' i ;; c <- defined (double_to_int v) ;; k c) tr.
Proof.
  intros H.
  assert (Hi : option_map double_to_int (nth_error l i)
               = option_map double_to_int (nth_error l' i)).
  { rewrite <- !nth_error_map, H. reflexivity. }
  unfold element.
  destruct (nth_error l i) as [v|], (nth_error l' i) as [v'|];
    cbn [option_map] in Hi; try discriminate; [| reflexivity ].
  injection Hi as Hi. cbn [defined]. rewrite !bind_ret, Hi. reflexivity.
Qed.

(** ** The 1D gateway *)

Lemma argument_count_1D (a b : mxArray) (rest : list mxArray) :
  (List.length rest <= 1)%nat ->
  negb ((Z.of_nat (List.length (a :: b :: rest)) =? 2)
        || (Z.of_nat (List.length (a :: b :: rest)) =? 3)) = false.
Proof.
  intros H. destruct rest as [|d [|d' rest]]; cbn [List.length] in H;
    [ reflexivity | reflexivity | lia ].
Qed.

Lemma read_DIM_absent (A T : mxArray) (DIM : Z) :
  dtt1D.read_DIM [A; T] 2 DIM = ret DIM.
Proof. reflexivity. Qed.

(** With a third argument of one element, [DIM] is its first stored double,
    converted; nothing else of that argument is looked at. *)
Lemma read_DIM_given (A T D : mxArray) (DIM0 d : Z) (tr : list event) :
  mxIsDouble T = true -> mxIsComplex T = false ->
  mxGetNumberOfElements D = 1 -> holds_code D 0 d ->
  dtt1D.read_DIM [A; T; D] 3 DIM0 tr
  = (if (d =? 1) || (d =? 2) then Returned d else Error InvalidAxis, tr).
Proof.
  intros HTd HTc HDn (v & Hv & Hd).
  unfold dtt1D.read_DIM. change (3 =? 3) with true. cbv iota.
  rewrite (element_found [A; T; D] 1 T eq_refl).
  rewrite (element_found [A; T; D] 2 D eq_refl).
  mex_simpl. rewrite HTd, HTc, HDn. change (1 =? 1) with true.
  mex_simpl. rewrite (element_found _ _ _ Hv). mex_simpl.
  rewrite Hd. mex_simpl.
  destruct ((d =? 1) || (d =? 2)); mex_simpl; reflexivity.
Qed.

(** A call that passes every check runs the six calls of a 1D transform. *)
Lemma dtt1D_completes (A T : mxArray) (rest : list mxArray)
    (c DIM d0 d1 : Z) (k : fftw_r2r_kind) (g : dtt1D.plan_variables)
    (tr : list event) :
  (List.length rest <= 1)%nat ->
  mxIsDouble T = true -> mxIsComplex T = false ->
  mxGetNumberOfElements T = 1 ->
  holds_code T 0 c -> dtt1D.set_DTT_type c = ret k ->
  dtt1D.read_DIM (A :: T :: rest)
    (Z.of_nat (List.length (A :: T :: rest))) 1 tr = (Returned DIM, tr) ->
  mxIsDouble A = true -> mxIsComplex A = false ->
  mxGetDimensions A = [d0; d1] ->
  dtt1D.define_plan_variables (mwSize_to_int d0) (mwSize_to_int d1)
    (dtt1D.force_DIM (mwSize_to_int d0) (mwSize_to_int d1) DIM) = ret g ->
  dtt1D.mexFunction 1 (A :: T :: rest) tr
  = (Returned tt, tr ++ events1D [d0; d1] g k).
Proof.
  intros Hlen HTd HTc HTn (v & Hv & Hc) Hk HDIM HAd HAc Hdims Hg.
  pose proof (set_DTT_type_range _ _ Hk) as Hrange.
  unfold dtt1D.mexFunction.
  rewrite (argument_count_1D A T rest Hlen).
  change (negb (1 =? 1)) with false.
  rewrite (element_found (A :: T :: rest) 1 T eq_refl).
  mex_simpl. rewrite HTd, HTc, HTn. change (1 =? 1) with true.
  mex_simpl. rewrite (element_found _ _ _ Hv). mex_simpl.
  rewrite Hc. mex_simpl.
  rewrite (check_DTT_type_valid c Hrange). mex_simpl.
  rewrite (bind_returned _ _ _ _ _ HDIM).
  rewrite (element_found (A :: T :: rest) 0 A eq_refl).
  mex_simpl. rewrite HAd, HAc. mex_simpl.
  unfold mxGetNumberOfDimensions. unfold mxGetDimensions in *.
  rewrite Hdims.
  change (Z.of_nat (List.length [d0; d1]) >? 2) with false.
  rewrite (element_found [d0; d1] 0 d0 eq_refl).
  rewrite (element_found [d0; d1] 1 d1 eq_refl).
  mex_simpl. rewrite Hg. mex_simpl. rewrite Hk. mex_simpl.
  unfold call, events1D. rewrite <- !app_assoc. reflexivity.
Qed.

(** A DTT type outside 1..8 stops the 1D gateway at its value check, before
    anything is allocated or planned. *)
Lemma dtt1D_invalid_type (A T : mxArray) (rest : list mxArray) (c : Z)
    (tr : list event) :
  (List.length rest <= 1)%nat ->
  mxIsDouble T = true -> mxIsComplex T = false ->
  mxGetNumberOfElements T = 1 ->
  holds_code T 0 c -> c < 1 \/ 8 < c ->
  dtt1D.mexFunction 1 (A :: T :: rest) tr = (Error InvalidTypeCode, tr).
Proof.
  intros Hlen HTd HTc HTn (v & Hv & Hc) Hout.
  unfold dtt1D.mexFunction.
  rewrite (argument_count_1D A T rest Hlen).
  change (negb (1 =? 1)) with false.
  rewrite (element_found (A :: T :: rest) 1 T eq_refl).
  mex_simpl. rewrite HTd, HTc, HTn. change (1 =? 1) with true.
  mex_simpl. rewrite (element_found _ _ _ Hv). mex_simpl.
  rewrite Hc. mex_simpl.
  rewrite (check_DTT_type_invalid c Hout). mex_simpl. reflexivity.
Qed.

(** The class and the complexity flag of the third argument do not reach
    the result. *)
Lemma dtt1D_ignores_class_of_DIM (nlhs : Z) (A T D : mxArray)
    (cls : mxClassID) (cx : bool) (tr : list event) :
  dtt1D.mexFunction nlhs [A; T; D] tr
  = dtt1D.mexFunction nlhs [A; T; with_class D cls cx] tr.
Proof. reflexivity. Qed.

(** The 1D gateway depends on the stored type code through its conversion
    to [int] only. *)
Lemma dtt1D_truncation (nlhs : Z) (A T : mxArray) (rest : list mxArray)
    (l' : list double) (tr : list event) :
  map double_to_int (pr T) = map double_to_int l' ->
  dtt1D.mexFunction nlhs (A :: T :: rest) tr
  = dtt1D.mexFunction nlhs (A :: with_pr T l' :: rest) tr.
Proof.
  intros H. unfold dtt1D.mexFunction.
  change (List.length (A :: with_pr T l' :: rest))
    with (List.length (A :: T :: rest)).
  apply bind_cong; intros _ tr1.
  rewrite (element_found (A :: T :: rest) 1 T eq_refl).
  rewrite (element_found (A :: with_pr T l' :: rest) 1 _ eq_refl).
  rewrite !bind_ret.
  apply bind_cong; intros _ tr2.
  apply (read_code_cong (pr T) l' 0 _ tr2 H).
Qed.

(** ** The 2D gateway *)

Lemma assign_DTT_types_scalar (p : list double) (c : Z)
    (k : fftw_r2r_kind) (tr : list event) :
  (exists v, nth_error p 0 = Some v /\ double_to_int v = Some c) ->
  dtt1D.set_DTT_type c = ret k ->
  dtt2D.assign_DTT_types p 1 tr = (Returned (k, k), tr).
Proof.
  intros (v & Hv & Hc) Hk. unfold dtt2D.assign_DTT_types.
  change (1 =? 1) with true. cbv iota.
  rewrite (element_found _ _ _ Hv). mex_simpl. rewrite Hc. mex_simpl.
  rewrite assign_scalar_eq, Hk. reflexivity.
Qed.

Lemma assign_DTT_types_pair (p : list double) (cx cy : Z)
    (kx ky : fftw_r2r_kind) (tr : list event) :
  (exists v, nth_error p 0 = Some v /\ double_to_int v = Some cx) ->
  (exists v, nth_error p 1 = Some v /\ double_to_int v = Some cy) ->
  dtt2D.assign_x_direction cx = ret kx ->
  dtt2D.assign_y_direction cy = ret ky ->
  dtt2D.assign_DTT_types p 2 tr = (Returned (kx, ky), tr).
Proof.
  intros (v0 & Hv0 & Hc0) (v1 & Hv1 & Hc1) Hx Hy.
  unfold dtt2D.assign_DTT_types.
  change (2 =? 1) with false. change (2 =? 2) with true. cbv iota.
  rewrite (element_found _ _ _ Hv0). mex_simpl. rewrite Hc0. mex_simpl.
  rewrite Hx. mex_simpl.
  rewrite (element_found _ _ _ Hv1). mex_simpl. rewrite Hc1. mex_simpl.
  rewrite Hy. mex_simpl. reflexivity.
Qed.

Lemma assign_DTT_types_scalar_invalid (p : list double) (c : Z)
    (tr : list event) :
  (exists v, nth_error p 0 = Some v /\ double_to_int v = Some c) ->
  c < 1 \/ 8 < c ->
  dtt2D.assign_DTT_types p 1 tr = (Error InvalidTypeCode, tr).
Proof.
  intros (v & Hv & Hc) Hout. unfold dtt2D.assign_DTT_types.
  change (1 =? 1) with true. cbv iota.
  rewrite (element_found _ _ _ Hv). mex_simpl. rewrite Hc. mex_simpl.
  rewrite assign_scalar_eq, (set_DTT_type_default c Hout). reflexivity.
Qed.

Lemma assign_DTT_types_x_invalid (p : list double) (cx : Z)
    (tr : list event) :
  (exists v, nth_error p 0 = Some v /\ double_to_int v = Some cx) ->
  cx < 1 \/ 8 < cx ->
  dtt2D.assign_DTT_types p 2 tr = (Error InvalidTypeCode, tr).
Proof.
  intros (v0 & Hv0 & Hc0) Hout. unfold dtt2D.assign_DTT_types.
  change (2 =? 1) with false. change (2 =? 2) with true. cbv iota.
  rewrite (element_found _ _ _ Hv0). mex_simpl. rewrite Hc0. mex_simpl.
  rewrite assign_x_direction_eq, (set_DTT_type_default cx Hout).
  reflexivity.
Qed.

Lemma assign_DTT_types_y_invalid (p : list double) (cx cy : Z)
    (tr : list event) :
  (exists v, nth_error p 0 = Some v /\ double_to_int v = Some cx) ->
  (exists v, nth_error p 1 = Some v /\ double_to_int v = Some cy) ->
  1 <= cx <= 8 -> cy < 1 \/ 8 < cy ->
  dtt2D.assign_DTT_types p 2 tr = (Error InvalidTypeCode, tr).
Proof.
  intros (v0 & Hv0 & Hc0) (v1 & Hv1 & Hc1) Hin Hout.
  destruct (set_DTT_type_total cx Hin) as [kx Hkx].
  unfold dtt2D.assign_DTT_types.
  change (2 =? 1) with false. change (2 =? 2) with true. cbv iota.
  rewrite (element_found _ _ _ Hv0). mex_simpl. rewrite Hc0. mex_simpl.
  rewrite assign_x_direction_eq, Hkx. mex_simpl.
  rewrite (element_found _ _ _ Hv1). mex_simpl. rewrite Hc1. mex_simpl.
  rewrite assign_y_direction_eq, (set_DTT_type_default cy Hout).
  reflexivity.
Qed.

Lemma assign_DTT_types_length (p : list double) (n : Z) (tr : list event) :
  n <> 1 -> n <> 2 ->
  dtt2D.assign_DTT_types p n tr = (Error ShapeMismatch_type_length, tr).
Proof.
  intros H1 H2. unfold dtt2D.assign_DTT_types.
  destruct (n =? 1) eqn:E1; [ apply Z.eqb_eq in E1; contradiction |].
  destruct (n =? 2) eqn:E2; [ apply Z.eqb_eq in E2; contradiction |].
  reflexivity.
Qed.

Lemma assign_DTT_types_truncation (l l' : list double) (n : Z)
    (tr : list event) :
  map double_to_int l = map double_to_int l' ->
  dtt2D.assign_DTT_types l n tr = dtt2D.assign_DTT_types l' n tr.
Proof.
  intros H. unfold dtt2D.assign_DTT_types.
  destruct (n =? 1); [ apply (read_code_cong l l' 0 _ tr H) |].
  destruct (n =? 2); [| reflexivity ].
  rewrite (read_code_cong l l' 0 _ tr H).
  apply bind_cong; intros v0 tr1.
  apply bind_cong; intros c0 tr2.
  apply bind_cong; intros kx tr3.
  apply (read_code_cong l l' 1 _ tr3 H).
Qed.

(** The 2D gateway up to the choice of the kinds. *)
Lemma dtt2D_types (A T : mxArray) (tr : list event) :
  mxIsDouble T = true -> mxIsComplex T = false ->
  dtt2D.mexFunction 1 [A; T] tr
  = (types <- dtt2D.assign_DTT_types (mxGetPr T) (mxGetNumberOfElements T) ;;
     error_if (negb (mxIsDouble A && negb (mxIsComplex A)))
       "Input array must be double precision and real." ;;;
     error_if (negb (mxGetNumberOfDimensions A =? 2))
       "Input array must be 2D." ;;;
     dims0 <- element (mxGetDimensions A) 0 ;;
     dims1 <- element (mxGetDimensions A) 1 ;;
     call (mxCreateNumericArray (mxGetNumberOfDimensions A)
             (mxGetDimensions A) mxDOUBLE_CLASS false) ;;;
     call (fftw_plan_r2r_2d (mwSize_to_int dims1) (mwSize_to_int dims0)
             input_ptr output_ptr (snd types) (fst types) FFTW_ESTIMATE) ;;;
     call fftw_execute ;;;
     call fftw_destroy_plan) tr.
Proof.
  intros HTd HTc. unfold dtt2D.mexFunction.
  change (negb (Z.of_nat (List.length [A; T]) =? 2)) with false.
  change (negb (1 =? 1)) with false.
  rewrite (element_found [A; T] 1 T eq_refl).
  mex_simpl. rewrite HTd, HTc. mex_simpl.
  apply bind_cong; intros types tr1.
  rewrite (element_found [A; T] 0 A eq_refl). mex_simpl. reflexivity.
Qed.

(** A call that passes every check runs the four calls of a 2D transform:
    the planner is given [NY] before [NX] and the y kind before the x
    kind. *)
Lemma dtt2D_completes (A T : mxArray) (d0 d1 : Z)
    (kx ky : fftw_r2r_kind) (tr : list event) :
  mxIsDouble T = true -> mxIsComplex T = false ->
  dtt2D.assign_DTT_types (mxGetPr T) (mxGetNumberOfElements T) tr
    = (Returned (kx, ky), tr) ->
  mxIsDouble A = true -> mxIsComplex A = false ->
  mxGetDimensions A = [d0; d1] ->
  dtt2D.mexFunction 1 [A; T] tr
  = (Returned tt,
     tr ++ events2D [d0; d1] (mwSize_to_int d1) (mwSize_to_int d0) ky kx).
Proof.
  intros HTd HTc Htypes HAd HAc Hdims.
  rewrite (dtt2D_types A T tr HTd HTc).
  rewrite (bind_returned _ _ _ _ _ Htypes).
  rewrite HAd, HAc. mex_simpl.
  unfold mxGetNumberOfDimensions. unfold mxGetDimensions in *.
  rewrite Hdims.
  change (negb (Z.of_nat (List.length [d0; d1]) =? 2)) with false.
  rewrite (element_found [d0; d1] 0 d0 eq_refl).
  rewrite (element_found [d0; d1] 1 d1 eq_refl).
  mex_simpl. cbn [fst snd].
  unfold call, events2D. rewrite <- !app_assoc. reflexivity.
Qed.

(** A failure while the kinds are chosen is the failure of the call, and
    nothing has been allocated or planned by then. *)
Lemma dtt2D_fails (A T : mxArray) (msg : string) (tr : list event) :
  mxIsDouble T = true -> mxIsComplex T = false ->
  dtt2D.assign_DTT_types (mxGetPr T) (mxGetNumberOfElements T) tr
    = (Error msg, tr) ->
  dtt2D.mexFunction 1 [A; T] tr = (Error msg, tr).
Proof.
  intros HTd HTc Htypes.
  rewrite (dtt2D_types A T tr HTd HTc).
  apply (bind_failed _ _ _ _ _ Htypes).
Qed.

(** The 2D gateway depends on the stored type codes through their
    conversions to [int] only. *)
Lemma dtt2D_truncation (nlhs : Z) (A T : mxArray) (rest : list mxArray)
    (l' : list double) (tr : list event) :
  map double_to_int (pr T) = map double_to_int l' ->
  dtt2D.mexFunction nlhs (A :: T :: rest) tr
  = dtt2D.mexFunction nlhs (A :: with_pr T l' :: rest) tr.
Proof.
  intros H. unfold dtt2D.mexFunction.
  change (List.length (A :: with_pr T l' :: rest))
    with (List.length (A :: T :: rest)).
  apply bind_cong; intros _ tr1.
  rewrite (element_found (A :: T :: rest) 1 T eq_refl).
  rewrite (element_found (A :: with_pr T l' :: rest) 1 _ eq_refl).
  rewrite !bind_ret.
  apply bind_cong; intros _ tr2.
  change (mxGetPr (with_pr T l')) with l'.
  change (mxGetNumberOfElements (with_pr T l'))
    with (mxGetNumberOfElements T).
  unfold bind at 1 3.
  rewrite (assign_DTT_types_truncation (mxGetPr T) l' _ tr2 H).
  reflexivity.
Qed.

(** ** The plan geometry *)

Lemma force_DIM_proper (NX NY DIM : Z) :
  1 < NX -> 1 < NY -> dtt1D.force_DIM NX NY DIM = DIM.
Proof.
  intros HX HY. unfold dtt1D.force_DIM.
  destruct (NX =? 1) eqn:EX; [ apply Z.eqb_eq in EX; lia |].
  destruct (NY =? 1) eqn:EY; [ apply Z.eqb_eq in EY; lia |].
  reflexivity.
Qed.

(** The switch only returns for [DIM = 1] and [DIM = 2]. *)
Lemma define_plan_variables_cases (NX NY DIM : Z)
    (g : dtt1D.plan_variables) :
  dtt1D.define_plan_variables NX NY DIM = ret g ->
  DIM = 1 \/ DIM = 2.
Proof.
  intros H.
  destruct DIM as [|p|p];
    try (symmetry in H; apply ret_not_error in H; contradiction).
  destruct p as [p|p|]; [| | left; reflexivity ];
    try (symmetry in H; apply ret_not_error in H; contradiction).
  destruct p as [p|p|]; [| | right; reflexivity ];
    symmetry in H; apply ret_not_error in H; contradiction.
Qed.

(** The gateway hands the variables of the switch to the planner: a call
    with a matrix, a valid DTT type and a [DIM] of 1 or 2. *)
Lemma dtt1D_plans_with (A : mxArray) (d0 d1 c DIM : Z)
    (k : fftw_r2r_kind) (g : dtt1D.plan_variables) (tr : list event) :
  mxIsDouble A = true -> mxIsComplex A = false ->
  mxGetDimensions A = [d0; d1] ->
  0 <= d0 <= INT_MAX -> 0 <= d1 <= INT_MAX ->
  1 <= c <= 8 -> dtt1D.set_DTT_type c = ret k ->
  DIM = 1 \/ DIM = 2 ->
  resolve d0 d1 DIM = ret g ->
  dtt1D.mexFunction 1
    [A; scalar (int_to_double c); scalar (int_to_double DIM)] tr
  = (Returned tt, tr ++ events1D [d0; d1] g k).
Proof.
  intros HAd HAc Hdims H0 H1 Hc Hk HDIM Hg.
  assert (Hcode : holds_code (scalar (int_to_double c)) 0 c).
  { exists (int_to_double c). split; [ reflexivity |].
    apply double_to_int_int_to_double. unfold INT_MIN, INT_MAX. lia. }
  assert (Hdim : holds_code (scalar (int_to_double DIM)) 0 DIM).
  { exists (int_to_double DIM). split; [ reflexivity |].
    apply double_to_int_int_to_double. unfold INT_MIN, INT_MAX. lia. }
  apply (dtt1D_completes A _ _ c DIM d0 d1 k g tr); auto.
  - change (Z.of_nat (List.length
      [A; scalar (int_to_double c); scalar (int_to_double DIM)])) with 3.
    rewrite (read_DIM_given A (scalar (int_to_double c))
               (scalar (int_to_double DIM)) 1 DIM tr
               eq_refl eq_refl eq_refl Hdim).
    destruct HDIM; subst DIM; reflexivity.
  - rewrite !mwSize_to_int_small by assumption. exact Hg.
Qed.

(** C1: for every 2D array with extents NX > 1 and NY > 1 the switch on DIM
    yields the column-major geometry.  Along COLUMNS (DIM = 1): length NX,
    batch NY, stride 1, distance NX.  Along ROWS (DIM = 2): length NY, batch
    NX, stride NX, distance 1.  The strides and distances of input and output
    are the same, and the gateway passes exactly these to the planner. *)
Theorem C1_column_major_geometry (NX NY : Z) :
  1 < NX -> 1 < NY ->
  resolve NX NY COLUMNS
    = ret {| dtt1D.n0 := NX; dtt1D.howmany := NY;
             dtt1D.idist := NX; dtt1D.odist := NX;
             dtt1D.istride := 1; dtt1D.ostride := 1 |}
  /\ resolve NX NY ROWS
    = ret {| dtt1D.n0 := NY; dtt1D.howmany := NX;
             dtt1D.idist := 1; dtt1D.odist := 1;
             dtt1D.istride := NX; dtt1D.ostride := NX |}
  /\ (forall DIM g,
        dtt1D.define_plan_variables NX NY DIM = ret g ->
        dtt1D.istride g = dtt1D.ostride g
        /\ dtt1D.idist g = dtt1D.odist g)
  /\ (forall A c k axis g tr,
        mxIsDouble A = true -> mxIsComplex A = false ->
        mxGetDimensions A = [NX; NY] ->
        NX <= INT_MAX -> NY <= INT_MAX ->
        dtt1D.set_DTT_type c = ret k ->
        axis = COLUMNS \/ axis = ROWS ->
        resolve NX NY axis = ret g ->
        dtt1D.mexFunction 1
          [A; scalar (int_to_double c); scalar (int_to_double axis)] tr
        = (Returned tt, tr ++ events1D [NX; NY] g k)).
Proof.
  intros HX HY. unfold resolve.
  rewrite !force_DIM_proper by assumption.
  split; [ reflexivity |]. split; [ reflexivity |]. split.
  - intros DIM g Hg.
    destruct (define_plan_variables_cases _ _ _ _ Hg); subst DIM;
      apply ret_inj in Hg; subst g; split; reflexivity.
  - intros A c k axis g tr HAd HAc Hdims HXm HYm Hk Haxis Hg.
    pose proof (set_DTT_type_range c k Hk) as Hc.
    apply (dtt1D_plans_with A NX NY c axis k g tr); auto; lia.
Qed.

Lemma C1_column_major_geometry_witness :
  resolve 3 4 COLUMNS
    = ret {| dtt1D.n0 := 3; dtt1D.howmany := 4;
             dtt1D.idist := 3; dtt1D.odist := 3;
             dtt1D.istride := 1; dtt1D.ostride := 1 |}
  /\ resolve 3 4 ROWS
    = ret {| dtt1D.n0 := 4; dtt1D.howmany := 3;
             dtt1D.idist := 1; dtt1D.odist := 1;
             dtt1D.istride := 3; dtt1D.ostride := 3 |}.
Proof.
  destruct (C1_column_major_geometry 3 4) as (Hc & Hr & _); [ lia | lia |].
  split; [ exact Hc | exact Hr ].
Defined.

(** C4, amended: with NX = 1 the effective axis is ROWS, whatever was asked
    for; with NY = 1 and NX other than 1 it is COLUMNS; with NX > 1 and
    NY > 1 it is the requested axis. *)
Theorem C4_degenerate_axis (NX NY DIM : Z) :
  (NX = 1 -> dtt1D.force_DIM NX NY DIM = ROWS)
  /\ (NY = 1 -> NX <> 1 -> dtt1D.force_DIM NX NY DIM = COLUMNS)
  /\ (1 < NX -> 1 < NY -> dtt1D.force_DIM NX NY DIM = DIM).
Proof.
  repeat split.
  - intros ->. reflexivity.
  - intros -> HX. unfold dtt1D.force_DIM.
    destruct (NX =? 1) eqn:EX; [ apply Z.eqb_eq in EX; contradiction |].
    reflexivity.
  - apply force_DIM_proper.
Qed.

Lemma C4_degenerate_axis_witness :
  dtt1D.force_DIM 1 5 COLUMNS = ROWS
  /\ dtt1D.force_DIM 5 1 ROWS = COLUMNS
  /\ dtt1D.force_DIM 3 4 ROWS = ROWS.
Proof.
  split; [| split ].
  - apply (C4_degenerate_axis 1 5 COLUMNS). reflexivity.
  - apply (C4_degenerate_axis 5 1 ROWS); [ reflexivity | lia ].
  - apply (C4_degenerate_axis 3 4 ROWS); lia.
Defined.

(** C4 as stated fails for a 1-by-1 array: NY = 1, and the effective axis is
    ROWS, not COLUMNS, because the test on NX comes first. *)
Lemma C4_one_by_one_is_rows :
  exists NX NY DIM,
    NY = 1 /\ dtt1D.force_DIM NX NY DIM = ROWS /\ ROWS <> COLUMNS.
Proof.
  exists 1, 1, COLUMNS. repeat split. discriminate.
Qed.

(** C5: for NX, NY >= 2 and either axis the resolver returns a geometry with
    stride*(length-1) + distance*(batch-1) + 1 <= NX*NY and
    length*batch = NX*NY; every sample of every batch instance lies inside
    the NX*NY buffer. *)
Theorem C5_geometry_in_bounds (NX NY axis : Z) :
  2 <= NX -> 2 <= NY -> axis = ROWS \/ axis = COLUMNS ->
  exists g,
    resolve NX NY axis = ret g
    /\ dtt1D.istride g * (dtt1D.n0 g - 1)
       + dtt1D.idist g * (dtt1D.howmany g - 1) + 1 <= NX * NY
    /\ dtt1D.n0 g * dtt1D.howmany g = NX * NY
    /\ (forall b j,
          0 <= b < dtt1D.howmany g -> 0 <= j < dtt1D.n0 g ->
          0 <= b * dtt1D.idist g + j * dtt1D.istride g < NX * NY
          /\ 0 <= b * dtt1D.odist g + j * dtt1D.ostride g < NX * NY).
Proof.
  intros HX HY Haxis. unfold resolve.
  rewrite force_DIM_proper by lia.
  destruct Haxis; subst axis; eexists; (split; [ reflexivity |]);
    cbn [dtt1D.n0 dtt1D.howmany dtt1D.idist dtt1D.odist
         dtt1D.istride dtt1D.ostride];
    (split; [ nia |]); (split; [ nia |]); intros b j Hb Hj; nia.
Qed.

Lemma C5_geometry_in_bounds_witness :
  exists g,
    resolve 3 4 ROWS = ret g
    /\ dtt1D.istride g * (dtt1D.n0 g - 1)
       + dtt1D.idist g * (dtt1D.howmany g - 1) + 1 <= 3 * 4
    /\ dtt1D.n0 g * dtt1D.howmany g = 3 * 4.
Proof.
  destruct (C5_geometry_in_bounds 3 4 ROWS) as (g & Hg & Hb & Hn & _);
    [ lia | lia | left; reflexivity |].
  exists g. repeat split; assumption.
Defined.

(** C6, amended: for NX = 1, NY = 5 and any requested axis the geometry is
    length 5, batch 1, stride 1, distance 1 (ROWS is forced); for NX = 5,
    NY = 1 it is length 5, batch 1, stride 1, distance 5 (COLUMNS is
    forced). *)
Theorem C6_degenerate_geometry (requestedAxis : Z) :
  resolve 1 5 requestedAxis
    = ret {| dtt1D.n0 := 5; dtt1D.howmany := 1;
             dtt1D.idist := 1; dtt1D.odist := 1;
             dtt1D.istride := 1; dtt1D.ostride := 1 |}
  /\ dtt1D.force_DIM 1 5 requestedAxis = ROWS
  /\ resolve 5 1 requestedAxis
    = ret {| dtt1D.n0 := 5; dtt1D.howmany := 1;
             dtt1D.idist := 5; dtt1D.odist := 5;
             dtt1D.istride := 1; dtt1D.ostride := 1 |}
  /\ dtt1D.force_DIM 5 1 requestedAxis = COLUMNS.
Proof. repeat split. Qed.

(** C6 as stated has the two distances exchanged: the single row gets
    distance 1, not 5, and the single column gets distance 5, not 1. *)
Lemma C6_distances_exchanged :
  (exists g, resolve 1 5 COLUMNS = ret g
             /\ dtt1D.idist g = 1 /\ dtt1D.idist g <> 5)
  /\ (exists g, resolve 5 1 ROWS = ret g
                /\ dtt1D.idist g = 5 /\ dtt1D.idist g <> 1).
Proof.
  split; eexists; (split; [ reflexivity |]); split;
    [ reflexivity | discriminate | reflexivity | discriminate ].
Qed.

(** ** The type mapper *)

Lemma set_DTT_type_injective (c1 c2 : Z) (k : fftw_r2r_kind) :
  dtt1D.set_DTT_type c1 = ret k -> dtt1D.set_DTT_type c2 = ret k ->
  c1 = c2.
Proof.
  intros H1 H2.
  pose proof (set_DTT_type_range _ _ H1) as R1.
  pose proof (set_DTT_type_range _ _ H2) as R2.
  each_code c1 R1; apply ret_inj in H1; subst k;
    each_code c2 R2; apply ret_inj in H2;
    first [ reflexivity | discriminate H2 ].
Qed.

Lemma set_DTT_type_surjective (k : fftw_r2r_kind) :
  exists c, 1 <= c <= 8 /\ dtt1D.set_DTT_type c = ret k.
Proof.
  destruct k;
    [ exists 1 | exists 2 | exists 3 | exists 4
    | exists 5 | exists 6 | exists 7 | exists 8 ];
    (split; [ lia | reflexivity ]).
Qed.

(** C2: the mapper is total on the codes 1..8 and a bijection onto the eight
    kinds, in the fixed order REDFT00, REDFT10, REDFT01, REDFT11, RODFT00,
    RODFT10, RODFT01, RODFT11; any other code, 0 and 9 among them, fails with
    the message for an invalid type code, and the gateways then stop before
    anything is allocated, planned or executed. *)
Theorem C2_type_mapper :
  map dtt1D.set_DTT_type [1; 2; 3; 4; 5; 6; 7; 8] = map ret all_kinds
  /\ (forall c, 1 <= c <= 8 -> exists k, dtt1D.set_DTT_type c = ret k)
  /\ (forall c1 c2 k,
        dtt1D.set_DTT_type c1 = ret k -> dtt1D.set_DTT_type c2 = ret k ->
        c1 = c2)
  /\ (forall k, exists c, 1 <= c <= 8 /\ dtt1D.set_DTT_type c = ret k)
  /\ (forall c, c < 1 \/ 8 < c ->
        dtt1D.set_DTT_type c = mexErrMsgTxt InvalidTypeCode)
  /\ dtt1D.set_DTT_type 0 = mexErrMsgTxt InvalidTypeCode
  /\ dtt1D.set_DTT_type 9 = mexErrMsgTxt InvalidTypeCode
  /\ (forall c tr,
        dtt2D.assign_scalar c tr
        = (k <- dtt1D.set_DTT_type c ;; ret (k, k)) tr)
  /\ (forall A T rest c tr,
        (List.length rest <= 1)%nat ->
        mxIsDouble T = true -> mxIsComplex T = false ->
        mxGetNumberOfElements T = 1 ->
        holds_code T 0 c -> c < 1 \/ 8 < c ->
        dtt1D.mexFunction 1 (A :: T :: rest) tr
        = (Error InvalidTypeCode, tr))
  /\ (forall A T c tr,
        mxIsDouble T = true -> mxIsComplex T = false ->
        mxGetNumberOfElements T = 1 ->
        holds_code T 0 c -> c < 1 \/ 8 < c ->
        dtt2D.mexFunction 1 [A; T] tr = (Error InvalidTypeCode, tr))
  /\ (forall A T cx cy tr,
        mxIsDouble T = true -> mxIsComplex T = false ->
        mxGetNumberOfElements T = 2 ->
        holds_code T 0 cx -> holds_code T 1 cy ->
        (cx < 1 \/ 8 < cx) \/ (cy < 1 \/ 8 < cy) ->
        dtt2D.mexFunction 1 [A; T] tr = (Error InvalidTypeCode, tr)).
Proof.
  split; [ reflexivity |].
  split; [ exact set_DTT_type_total |].
  split; [ exact set_DTT_type_injective |].
  split; [ exact set_DTT_type_surjective |].
  split; [ exact set_DTT_type_default |].
  split; [ reflexivity |].
  split; [ reflexivity |].
  split; [ exact assign_scalar_eq |].
  split; [ exact dtt1D_invalid_type |].
  split.
  - intros A T c tr HTd HTc HTn Hc Hout.
    apply (dtt2D_fails A T _ tr HTd HTc). rewrite HTn.
    apply (assign_DTT_types_scalar_invalid _ c tr Hc Hout).
  - intros A T cx cy tr HTd HTc HTn Hx Hy Hout.
    apply (dtt2D_fails A T _ tr HTd HTc). rewrite HTn.
    destruct (Z_lt_ge_dec cx 1) as [Hlo|Hlo];
      [ apply (assign_DTT_types_x_invalid _ cx tr Hx); lia |].
    destruct (Z_lt_ge_dec 8 cx) as [Hhi|Hhi];
      [ apply (assign_DTT_types_x_invalid _ cx tr Hx); lia |].
    apply (assign_DTT_types_y_invalid _ cx cy tr Hx Hy); lia.
Qed.

Lemma C2_type_mapper_witness :
  (exists k, dtt1D.set_DTT_type 3 = ret k)
  /\ dtt1D.set_DTT_type (-4) = mexErrMsgTxt InvalidTypeCode
  /\ run (dtt1D.mexFunction 1 [matrix 3 4 []; scalar (int_to_double 9)])
     = (Error InvalidTypeCode, [])
  /\ run (dtt2D.mexFunction 1
            [matrix 3 4 []; row_vector [d2_0; int_to_double 0]])
     = (Error InvalidTypeCode, []).
Proof.
  destruct C2_type_mapper
    as (_ & Htot & _ & _ & Hdef & _ & _ & _ & H1 & _ & H2).
  split; [ apply Htot; lia |].
  split; [ apply Hdef; lia |].
  split.
  - apply (H1 _ _ [] 9); try reflexivity; [ cbn; lia | | lia ].
    exists (int_to_double 9). split; reflexivity.
  - apply (H2 _ _ 2 0); try reflexivity.
    + exists d2_0. split; reflexivity.
    + exists (int_to_double 0). split; reflexivity.
    + right. lia.
Defined.

(** C7: the switch of the 1D gateway, the scalar switch of the 2D gateway
    and its two per-direction switches agree: every code in 1..8 is mapped
    to one and the same kind by all four. *)
Theorem C7_one_mapping (c : Z) :
  1 <= c <= 8 ->
  exists k,
    dtt1D.set_DTT_type c = ret k
    /\ dtt2D.assign_scalar c = ret (k, k)
    /\ dtt2D.assign_x_direction c = ret k
    /\ dtt2D.assign_y_direction c = ret k.
Proof.
  intros H. each_code c H; eexists; repeat split.
Qed.

Lemma C7_one_mapping_witness :
  exists k,
    dtt1D.set_DTT_type 6 = ret k
    /\ dtt2D.assign_scalar 6 = ret (k, k)
    /\ dtt2D.assign_x_direction 6 = ret k
    /\ dtt2D.assign_y_direction 6 = ret k.
Proof. apply (C7_one_mapping 6). lia. Defined.

(** ** Routing of the two codes in the 2D gateway *)

Lemma events_differ (tr : list event) (dims : list Z) (n0 n1 : Z)
    (k0 k1 k0' k1' : fftw_r2r_kind) :
  k0 <> k0' ->
  (Returned tt, tr ++ events2D dims n0 n1 k0 k1)
  <> (Returned tt, tr ++ events2D dims n0 n1 k0' k1').
Proof.
  intros Hk H. injection H as H. apply app_inv_head in H.
  unfold events2D in H. injection H as H. contradiction.
Qed.

(** C3: for every 2D input and every pair of valid type codes, the fused
    planner is called with the extents in the order (NY, NX) and with the
    kinds in the same (y, x) order, so that the kind of the first code stands
    with NX and the kind of the second with NY.  The calls made for the
    codes [2,3] and for [3,2] are therefore different ones: REDFT01 along NY
    and REDFT10 along NX for the first, the reverse for the second. *)
Theorem C3_axis_routing (A : mxArray) (d0 d1 : Z) (tr : list event) :
  mxIsDouble A = true -> mxIsComplex A = false ->
  mxGetDimensions A = [d0; d1] ->
  (forall T cx cy,
     mxIsDouble T = true -> mxIsComplex T = false ->
     mxGetNumberOfElements T = 2 ->
     holds_code T 0 cx -> holds_code T 1 cy ->
     1 <= cx <= 8 -> 1 <= cy <= 8 ->
     exists kx ky,
       dtt1D.set_DTT_type cx = ret kx /\ dtt1D.set_DTT_type cy = ret ky
       /\ dtt2D.mexFunction 1 [A; T] tr
          = (Returned tt,
             tr ++ [ mxCreateNumericArray 2 [d0; d1] mxDOUBLE_CLASS false;
                     fftw_plan_r2r_2d (mwSize_to_int d1) (mwSize_to_int d0)
                       input_ptr output_ptr ky kx FFTW_ESTIMATE;
                     fftw_execute; fftw_destroy_plan ]))
  /\ (0 <= d0 <= INT_MAX -> mwSize_to_int d0 = d0)
  /\ (0 <= d1 <= INT_MAX -> mwSize_to_int d1 = d1)
  /\ dtt2D.mexFunction 1 [A; row_vector [d2_0; d3_0]] tr
     = (Returned tt,
        tr ++ events2D [d0; d1] (mwSize_to_int d1) (mwSize_to_int d0)
                FFTW_REDFT01 FFTW_REDFT10)
  /\ dtt2D.mexFunction 1 [A; row_vector [d3_0; d2_0]] tr
     = (Returned tt,
        tr ++ events2D [d0; d1] (mwSize_to_int d1) (mwSize_to_int d0)
                FFTW_REDFT10 FFTW_REDFT01)
  /\ dtt2D.mexFunction 1 [A; row_vector [d2_0; d3_0]] tr
     <> dtt2D.mexFunction 1 [A; row_vector [d3_0; d2_0]] tr.
Proof.
  intros HAd HAc Hdims.
  assert (H23 : dtt2D.mexFunction 1 [A; row_vector [d2_0; d3_0]] tr
     = (Returned tt,
        tr ++ events2D [d0; d1] (mwSize_to_int d1) (mwSize_to_int d0)
                FFTW_REDFT01 FFTW_REDFT10)).
  { apply dtt2D_completes;
      [ reflexivity | reflexivity | | exact HAd | exact HAc | exact Hdims ].
    apply (assign_DTT_types_pair _ 2 3); try reflexivity;
      eexists; split; reflexivity. }
  assert (H32 : dtt2D.mexFunction 1 [A; row_vector [d3_0; d2_0]] tr
     = (Returned tt,
        tr ++ events2D [d0; d1] (mwSize_to_int d1) (mwSize_to_int d0)
                FFTW_REDFT10 FFTW_REDFT01)).
  { apply dtt2D_completes;
      [ reflexivity | reflexivity | | exact HAd | exact HAc | exact Hdims ].
    apply (assign_DTT_types_pair _ 3 2); try reflexivity;
      eexists; split; reflexivity. }
  split; [| split; [| split; [| split; [| split ]]]].
  - intros T cx cy HTd HTc HTn Hx Hy Rx Ry.
    destruct (set_DTT_type_total cx Rx) as [kx Hkx].
    destruct (set_DTT_type_total cy Ry) as [ky Hky].
    exists kx, ky. split; [ exact Hkx |]. split; [ exact Hky |].
    apply (dtt2D_completes A T d0 d1 kx ky tr); auto.
    rewrite HTn. apply (assign_DTT_types_pair _ cx cy); assumption.
  - apply mwSize_to_int_small.
  - apply mwSize_to_int_small.
  - exact H23.
  - exact H32.
  - rewrite H23, H32. apply events_differ. discriminate.
Qed.

Lemma C3_axis_routing_witness :
  run (dtt2D.mexFunction 1 [matrix 3 4 []; row_vector [d2_0; d3_0]])
  = (Returned tt,
     [ mxCreateNumericArray 2 [3; 4] mxDOUBLE_CLASS false;
       fftw_plan_r2r_2d 4 3 input_ptr output_ptr
         FFTW_REDFT01 FFTW_REDFT10 FFTW_ESTIMATE;
       fftw_execute; fftw_destroy_plan ])
  /\ run (dtt2D.mexFunction 1 [matrix 3 4 []; row_vector [d3_0; d2_0]])
  = (Returned tt,
     [ mxCreateNumericArray 2 [3; 4] mxDOUBLE_CLASS false;
       fftw_plan_r2r_2d 4 3 input_ptr output_ptr
         FFTW_REDFT10 FFTW_REDFT01 FFTW_ESTIMATE;
       fftw_execute; fftw_destroy_plan ]).
Proof.
  destruct (C3_axis_routing (matrix 3 4 []) 3 4 [] eq_refl eq_refl eq_refl)
    as (_ & _ & _ & H23 & H32 & _).
  split; [ exact H23 | exact H32 ].
Defined.

(** ** The length of the type-code argument *)

(** C8: a call of the 2D gateway whose type-code argument has neither one
    nor two elements fails, with the message asking for a scalar or a vector
    of length 2 when the argument is a real double, and in every case before
    an output array is created or a plan is made: the trace of the run is
    left as it was. *)
Theorem C8_type_code_length (nlhs : Z) (prhs : list mxArray) (T : mxArray)
    (tr : list event) :
  nth_error prhs 1 = Some T ->
  mxGetNumberOfElements T <> 1 -> mxGetNumberOfElements T <> 2 ->
  (exists msg, dtt2D.mexFunction nlhs prhs tr = (Error msg, tr))
  /\ (nlhs = 1 -> List.length prhs = 2%nat ->
      mxIsDouble T = true -> mxIsComplex T = false ->
      dtt2D.mexFunction nlhs prhs tr
      = (Error ShapeMismatch_type_length, tr)).
Proof.
  intros HT H1 H2.
  assert (Hlen : forall A, prhs = [A; T] -> nlhs = 1 ->
            mxIsDouble T = true -> mxIsComplex T = false ->
            dtt2D.mexFunction nlhs prhs tr
            = (Error ShapeMismatch_type_length, tr)).
  { intros A -> -> HTd HTc.
    apply (dtt2D_fails A T _ tr HTd HTc).
    apply assign_DTT_types_length; assumption. }
  split.
  - destruct prhs as [|A [|T' [|X rest]]]; try discriminate HT.
    + injection HT as ->.
      destruct (Z.eq_dec nlhs 1) as [->|Hn].
      * destruct (mxIsDouble T) eqn:HTd;
          [ destruct (mxIsComplex T) eqn:HTc |].
        -- unfold dtt2D.mexFunction.
           change (negb (Z.of_nat (List.length [A; T]) =? 2)) with false.
           change (negb (1 =? 1)) with false.
           rewrite (element_found [A; T] 1 T eq_refl).
           mex_simpl. rewrite HTd, HTc. mex_simpl. eexists; reflexivity.
        -- eexists. apply (Hlen A); auto.
        -- unfold dtt2D.mexFunction.
           change (negb (Z.of_nat (List.length [A; T]) =? 2)) with false.
           change (negb (1 =? 1)) with false.
           rewrite (element_found [A; T] 1 T eq_refl).
           mex_simpl. rewrite HTd. mex_simpl. eexists; reflexivity.
      * unfold dtt2D.mexFunction.
        change (negb (Z.of_nat (List.length [A; T]) =? 2)) with false.
        apply Z.eqb_neq in Hn. rewrite Hn. mex_simpl.
        eexists; reflexivity.
    + unfold dtt2D.mexFunction.
      assert (Hn : negb (Z.of_nat (List.length (A :: T' :: X :: rest)) =? 2)
                   = true).
      { apply negb_true_iff, Z.eqb_neq. cbn [List.length]. lia. }
      rewrite Hn. mex_simpl. eexists; reflexivity.
  - intros Hn Hl HTd HTc.
    destruct prhs as [|A [|T' [|X rest]]]; try discriminate Hl.
    injection HT as ->. apply (Hlen A); auto.
Qed.

Lemma C8_type_code_length_witness :
  run (dtt2D.mexFunction 1 [matrix 3 4 []; row_vector [d3_0; d2_9; d2_0]])
  = (Error ShapeMismatch_type_length, []).
Proof.
  apply (C8_type_code_length 1 _ (row_vector [d3_0; d2_9; d2_0]) []);
    try reflexivity; discriminate.
Defined.

(** ** The checks on the DIM argument *)

(** With a real double DTT type and a third argument of one element, the
    type check of line 91 never fires. *)
Lemma read_DIM_type_check_passes (A T D : mxArray) (DIM0 : Z)
    (tr : list event) :
  mxIsDouble T = true -> mxIsComplex T = false ->
  mxGetNumberOfElements D = 1 ->
  fst (dtt1D.read_DIM [A; T; D] 3 DIM0 tr) <> Error DIM_type_message.
Proof.
  intros HTd HTc HDn.
  unfold dtt1D.read_DIM. change (3 =? 3) with true. cbv iota.
  rewrite (element_found [A; T; D] 1 T eq_refl).
  rewrite (element_found [A; T; D] 2 D eq_refl).
  mex_simpl. rewrite HTd, HTc, HDn. change (1 =? 1) with true.
  mex_simpl. unfold element.
  destruct (nth_error (mxGetPr D) 0) as [v|];
    [| cbn; discriminate ].
  mex_simpl.
  destruct (double_to_int v) as [d|]; [| cbn; discriminate ].
  mex_simpl.
  destruct ((d =? 1) || (d =? 2)); mex_simpl; cbn; discriminate.
Qed.

(** C9: when a third argument is given, the real/double test made for it
    looks at the DTT type argument; of the third argument itself only the
    element count is tested.  So, for a real double DTT type and a DIM of
    one element, DIM passes the type check whatever its class and complexity
    are, its storage is read as a double and converted, and the whole call
    runs as it does for a real double DIM with the same storage. *)
Theorem C9_DIM_type_unchecked (A T D : mxArray) (tr : list event) :
  mxIsDouble T = true -> mxIsComplex T = false ->
  mxGetNumberOfElements D = 1 ->
  fst (dtt1D.read_DIM [A; T; D] 3 1 tr) <> Error DIM_type_message
  /\ (forall d,
        holds_code D 0 d ->
        dtt1D.read_DIM [A; T; D] 3 1 tr
        = (if (d =? 1) || (d =? 2) then Returned d else Error InvalidAxis,
           tr))
  /\ (forall nlhs,
        dtt1D.mexFunction nlhs [A; T; D] tr
        = dtt1D.mexFunction nlhs
            [A; T; with_class D mxDOUBLE_CLASS false] tr)
  /\ (forall nlhs cls cx,
        dtt1D.mexFunction nlhs [A; T; with_class D cls cx] tr
        = dtt1D.mexFunction nlhs [A; T; D] tr).
Proof.
  intros HTd HTc HDn.
  split; [ apply read_DIM_type_check_passes; assumption |].
  split; [ intros d Hd; apply read_DIM_given; assumption |].
  split.
  - intros nlhs. apply dtt1D_ignores_class_of_DIM.
  - intros nlhs cls cx. symmetry. apply dtt1D_ignores_class_of_DIM.
Qed.

(** A complex single-precision DIM whose storage reads as the double 2.0 is
    taken for DIM = 2: the transform runs along the rows. *)
Lemma C9_DIM_type_unchecked_witness :
  dtt1D.read_DIM
    [matrix 3 4 []; scalar d2_0;
     {| classID := mxSINGLE_CLASS; complexity := true;
        dimensions := [1; 1]; pr := [d2_0] |}] 3 1 []
  = (Returned 2, []).
Proof.
  destruct (C9_DIM_type_unchecked (matrix 3 4 []) (scalar d2_0)
              {| classID := mxSINGLE_CLASS; complexity := true;
                 dimensions := [1; 1]; pr := [d2_0] |} []
              eq_refl eq_refl eq_refl) as (_ & Hread & _).
  apply (Hread 2). exists d2_0. split; reflexivity.
Defined.

(** ** Truncation of the type code *)

Lemma resolve_COLUMNS_returns (NX NY : Z) :
  exists g, resolve NX NY COLUMNS = ret g.
Proof.
  unfold resolve, dtt1D.force_DIM.
  destruct (NX =? 1); [ eexists; reflexivity |].
  destruct (NY =? 1); eexists; reflexivity.
Qed.

(** C10: both gateways convert the stored type code to [int], dropping its
    fractional part, before they look at its value.  A stored double [v]
    whose integral part [c] lies in 1..8, whole or not, is accepted, and the
    call runs exactly as with the whole number [c] in its place: in the 1D
    gateway, and in the 2D gateway for the scalar and for either element of
    the pair. *)
Theorem C10_type_code_truncated (A T : mxArray) (rest : list mxArray)
    (pre post : list double) (v : double) (c : Z) (tr : list event) :
  pr T = pre ++ v :: post ->
  double_to_int v = Some c -> 1 <= c <= 8 ->
  (forall nlhs,
     dtt1D.mexFunction nlhs (A :: T :: rest) tr
     = dtt1D.mexFunction nlhs
         (A :: with_pr T (pre ++ int_to_double c :: post) :: rest) tr)
  /\ (forall nlhs,
        dtt2D.mexFunction nlhs (A :: T :: rest) tr
        = dtt2D.mexFunction nlhs
            (A :: with_pr T (pre ++ int_to_double c :: post) :: rest) tr)
  /\ (forall d0 d1,
        mxIsDouble A = true -> mxIsComplex A = false ->
        mxGetDimensions A = [d0; d1] ->
        exists k g,
          dtt1D.set_DTT_type c = ret k
          /\ resolve (mwSize_to_int d0) (mwSize_to_int d1) COLUMNS = ret g
          /\ dtt1D.mexFunction 1 [A; scalar v] tr
             = (Returned tt, tr ++ events1D [d0; d1] g k)
          /\ dtt2D.mexFunction 1 [A; scalar v] tr
             = (Returned tt,
                tr ++ events2D [d0; d1]
                        (mwSize_to_int d1) (mwSize_to_int d0) k k)).
Proof.
  intros Hpr Hv Hc.
  assert (Hmap : map double_to_int (pr T)
                 = map double_to_int (pre ++ int_to_double c :: post)).
  { rewrite Hpr, !map_app. cbn [map]. rewrite Hv.
    rewrite double_to_int_int_to_double
      by (unfold INT_MIN, INT_MAX; lia).
    reflexivity. }
  split; [ intros nlhs; apply dtt1D_truncation; exact Hmap |].
  split; [ intros nlhs; apply dtt2D_truncation; exact Hmap |].
  intros d0 d1 HAd HAc Hdims.
  destruct (set_DTT_type_total c Hc) as [k Hk].
  destruct (resolve_COLUMNS_returns (mwSize_to_int d0) (mwSize_to_int d1))
    as [g Hg].
  assert (Hcode : holds_code (scalar v) 0 c).
  { exists v. split; [ reflexivity | exact Hv ]. }
  exists k, g. split; [ exact Hk |]. split; [ exact Hg |]. split.
  - apply (dtt1D_completes A (scalar v) [] c 1 d0 d1 k g tr);
      try reflexivity; try assumption.
    cbn [List.length]. lia.
  - apply (dtt2D_completes A (scalar v) d0 d1 k k tr);
      try reflexivity; try assumption.
    apply (assign_DTT_types_scalar _ c k tr Hcode Hk).
Qed.

(** 2.9 is taken for the code 2. *)
Lemma C10_type_code_truncated_witness :
  is_integral d2_9 = false
  /\ run (dtt1D.mexFunction 1 [matrix 3 4 []; scalar d2_9])
     = run (dtt1D.mexFunction 1 [matrix 3 4 []; scalar (int_to_double 2)])
  /\ run (dtt2D.mexFunction 1 [matrix 3 4 []; scalar d2_9])
     = run (dtt2D.mexFunction 1 [matrix 3 4 []; scalar (int_to_double 2)]).
Proof.
  destruct (C10_type_code_truncated (matrix 3 4 []) (scalar d2_9) []
              [] [] d2_9 2 [] eq_refl eq_refl) as (H1 & H2 & _);
    [ lia |].
  split; [ reflexivity |].
  split; [ exact (H1 1) | exact (H2 1) ].
Defined.

(** * Further properties of the gateways *)

Lemma bind_undefined {A B : Type} (m : mex A) (k : A -> mex B)
    (tr tr' : list event) :
  m tr = (Undefined, tr') -> bind m k tr = (Undefined, tr').
Proof. intros H. unfold bind. rewrite H. reflexivity. Qed.

Lemma bind_cong_l {A B : Type} (m m' : mex A) (k : A -> mex B)
    (tr : list event) :
  m tr = m' tr -> bind m k tr = bind m' k tr.
Proof. intros H. unfold bind. rewrite H. reflexivity. Qed.

Lemma element_missing {A : Type} (l : list A) (i : nat) (tr : list event) :
  nth_error l i = None -> element l i tr = (Undefined, tr).
Proof. intros H. unfold element. rewrite H. reflexivity. Qed.

Lemma force_DIM_valid (NX NY DIM : Z) :
  DIM = 1 \/ DIM = 2 ->
  dtt1D.force_DIM NX NY DIM = 1 \/ dtt1D.force_DIM NX NY DIM = 2.
Proof.
  intros H. unfold dtt1D.force_DIM.
  destruct (NX =? 1); [ right; reflexivity |].
  destruct (NY =? 1); [ left; reflexivity | exact H ].
Qed.

Lemma resolve_returns (NX NY DIM : Z) :
  DIM = 1 \/ DIM = 2 -> exists g, resolve NX NY DIM = ret g.
Proof.
  intros H. unfold resolve.
  destruct (force_DIM_valid NX NY DIM H) as [E|E]; rewrite E;
    eexists; reflexivity.
Qed.

(** Reading [DIM] makes no call, and what it returns is 1 or 2. *)
Lemma read_DIM_quiet (prhs : list mxArray) (nrhs : Z) (tr : list event) :
  quiet (dtt1D.read_DIM prhs nrhs 1 tr) tr (fun DIM => DIM = 1 \/ DIM = 2).
Proof.
  unfold dtt1D.read_DIM.
  destruct (nrhs =? 3);
    [| left; exists 1; split; [ left; reflexivity | reflexivity ] ].
  destruct (nth_error prhs 1) as [prhs1|] eqn:E1;
    [ rewrite (element_found _ _ _ E1), bind_ret
    | right; right; apply bind_undefined, element_missing, E1 ].
  destruct (nth_error prhs 2) as [prhs2|] eqn:E2;
    [ rewrite (element_found _ _ _ E2), bind_ret
    | right; right; apply bind_undefined, element_missing, E2 ].
  destruct (negb (mxIsDouble prhs1 && negb (mxIsComplex prhs1)
                  && (mxGetNumberOfElements prhs2 =? 1)));
    [ right; left; eexists; reflexivity |].
  mex_simpl.
  destruct (nth_error (mxGetPr prhs2) 0) as [v|] eqn:Ev;
    [ rewrite (element_found _ _ _ Ev), bind_ret
    | right; right; apply bind_undefined, element_missing, Ev ].
  destruct (double_to_int v) as [d|];
    [| right; right; reflexivity ].
  mex_simpl.
  destruct ((d =? 1) || (d =? 2)) eqn:Ed.
  - left. exists d. split; [| mex_simpl; reflexivity ].
    apply orb_true_iff in Ed. destruct Ed as [Ed|Ed];
      apply Z.eqb_eq in Ed; [ left | right ]; exact Ed.
  - right; left. mex_simpl. eexists; reflexivity.
Qed.

(** X1: a call of the 1D gateway either completes, with exactly the six
    calls of one transform (an output array of the dimensions of the input, a
    rank-1 plan whose variables are those resolved for DIM = 1 or 2 and whose
    kind is that of a code in 1..8, its execution and the releases), or it
    stops before the first of them.  In particular the defaults of the two
    switches, which come after the output array is created, are never
    reached. *)
Theorem dtt1D_all_or_nothing (nlhs : Z) (prhs : list mxArray)
    (tr : list event) :
  (exists A d0 d1 DIM c g k,
     nth_error prhs 0 = Some A /\ mxGetDimensions A = [d0; d1]
     /\ (DIM = 1 \/ DIM = 2)
     /\ resolve (mwSize_to_int d0) (mwSize_to_int d1) DIM = ret g
     /\ 1 <= c <= 8 /\ dtt1D.set_DTT_type c = ret k
     /\ dtt1D.mexFunction nlhs prhs tr
        = (Returned tt, tr ++ events1D [d0; d1] g k))
  \/ (exists msg, dtt1D.mexFunction nlhs prhs tr = (Error msg, tr))
  \/ dtt1D.mexFunction nlhs prhs tr = (Undefined, tr).
Proof.
  unfold dtt1D.mexFunction.
  destruct (negb ((Z.of_nat (List.length prhs) =? 2)
                  || (Z.of_nat (List.length prhs) =? 3))) eqn:En;
    [ right; left; eexists; reflexivity |].
  destruct (negb (nlhs =? 1));
    [ right; left; eexists; reflexivity |].
  mex_simpl.
  destruct prhs as [|A [|T rest]];
    [ discriminate En | discriminate En |].
  rewrite (element_found (A :: T :: rest) 1 T eq_refl), bind_ret.
  destruct (negb (mxIsDouble T && negb (mxIsComplex T)
                  && (mxGetNumberOfElements T =? 1)));
    [ right; left; eexists; reflexivity |].
  mex_simpl.
  destruct (nth_error (mxGetPr T) 0) as [v|] eqn:Ev;
    [ rewrite (element_found _ _ _ Ev), bind_ret
    | right; right; apply bind_undefined, element_missing, Ev ].
  destruct (double_to_int v) as [c|];
    [| right; right; reflexivity ].
  mex_simpl.
  destruct (Z_lt_ge_dec c 1) as [Hlo|Hlo];
    [ rewrite check_DTT_type_invalid by lia;
      right; left; eexists; reflexivity |].
  destruct (Z_lt_ge_dec 8 c) as [Hhi|Hhi];
    [ rewrite check_DTT_type_invalid by lia;
      right; left; eexists; reflexivity |].
  assert (Hc : 1 <= c <= 8) by lia.
  rewrite (check_DTT_type_valid c Hc), bind_ret.
  destruct (read_DIM_quiet (A :: T :: rest)
              (Z.of_nat (List.length (A :: T :: rest))) tr)
    as [(DIM & HDIM & HR) | [(msg & HR) | HR]];
    [ rewrite (bind_returned _ _ _ _ _ HR)
    | right; left; exists msg; apply (bind_failed _ _ _ _ _ HR)
    | right; right; apply (bind_undefined _ _ _ _ HR) ].
  rewrite (element_found (A :: T :: rest) 0 A eq_refl), bind_ret.
  destruct (negb (mxIsDouble A && negb (mxIsComplex A)));
    [ right; left; eexists; reflexivity |].
  mex_simpl.
  unfold mxGetNumberOfDimensions, mxGetDimensions.
  destruct (dimensions A) as [|d0 [|d1 [|d2 ds]]] eqn:Edims.
  - right; right. reflexivity.
  - right; right. reflexivity.
  - change (Z.of_nat (List.length [d0; d1]) >? 2) with false.
    rewrite (element_found [d0; d1] 0 d0 eq_refl).
    rewrite (element_found [d0; d1] 1 d1 eq_refl).
    mex_simpl.
    destruct (resolve_returns (mwSize_to_int d0) (mwSize_to_int d1) DIM HDIM)
      as [g Hg].
    destruct (set_DTT_type_total c Hc) as [k Hk].
    left. exists A, d0, d1, DIM, c, g, k.
    repeat (split; [ first [ reflexivity | assumption ] |]).
    unfold resolve in Hg. rewrite Hg. mex_simpl. rewrite Hk. mex_simpl.
    unfold call, events1D. rewrite <- !app_assoc. reflexivity.
  - assert (Hd : (Z.of_nat (List.length (d0 :: d1 :: d2 :: ds)) >? 2)
                 = true).
    { apply Z.gtb_lt. cbn [List.length]. lia. }
    rewrite Hd. right; left. eexists; reflexivity.
Qed.

(** Choosing the kinds makes no call, and the kinds chosen are those of two
    codes in 1..8. *)
Lemma assign_DTT_types_quiet (p : list double) (n : Z) (tr : list event) :
  quiet (dtt2D.assign_DTT_types p n tr) tr
    (fun types =>
       exists cx cy,
         dtt1D.set_DTT_type cx = ret (fst types)
         /\ dtt1D.set_DTT_type cy = ret (snd types)).
Proof.
  assert (Hread : forall i (B : Type) (K : Z -> mex B),
            (exists c, (1 <= c <= 8)
               /\ (v <- element p i ;; c <- defined (double_to_int v) ;; K c)
                    tr = K c tr)
            \/ (exists c, (c < 1 \/ 8 < c)
               /\ (v <- element p i ;; c <- defined (double_to_int v) ;; K c)
                    tr = K c tr)
            \/ (v <- element p i ;; c <- defined (double_to_int v) ;; K c) tr
               = (Undefined, tr)).
  { intros i B K.
    destruct (nth_error p i) as [v|] eqn:Ev;
      [ rewrite (element_found _ _ _ Ev), bind_ret
      | right; right; apply bind_undefined, element_missing, Ev ].
    destruct (double_to_int v) as [c|]; [| right; right; reflexivity ].
    mex_simpl.
    destruct (Z_lt_ge_dec c 1); [ right; left; exists c; split; auto |].
    destruct (Z_lt_ge_dec 8 c); [ right; left; exists c; split; auto |].
    left. exists c. split; [ lia | reflexivity ]. }
  unfold dtt2D.assign_DTT_types.
  destruct (n =? 1).
  - destruct (Hread 0%nat _ dtt2D.assign_scalar)
      as [(c & Hc & ->) | [(c & Hc & ->) | ->]];
      [| right; left | right; right; reflexivity ].
    + destruct (set_DTT_type_total c Hc) as [k Hk].
      left. exists (k, k). split; [ exists c, c; split; exact Hk |].
      rewrite assign_scalar_eq, Hk. reflexivity.
    + rewrite assign_scalar_eq, (set_DTT_type_default c Hc).
      eexists; reflexivity.
  - destruct (n =? 2); [| right; left; eexists; reflexivity ].
    destruct (Hread 0%nat _
                (fun c0 =>
                   DTT_type_x <- dtt2D.assign_x_direction c0 ;;
                   v1 <- element p 1 ;;
                   c1 <- defined (double_to_int v1) ;;
                   DTT_type_y <- dtt2D.assign_y_direction c1 ;;
                   ret (DTT_type_x, DTT_type_y)))
      as [(cx & Hx & ->) | [(cx & Hx & ->) | ->]];
      [| right; left | right; right; reflexivity ].
    + destruct (set_DTT_type_total cx Hx) as [kx Hkx].
      rewrite assign_x_direction_eq, Hkx, bind_ret.
      destruct (Hread 1%nat _
                  (fun c1 =>
                     DTT_type_y <- dtt2D.assign_y_direction c1 ;;
                     ret (kx, DTT_type_y)))
        as [(cy & Hy & ->) | [(cy & Hy & ->) | ->]];
        [| right; left | right; right; reflexivity ].
      * destruct (set_DTT_type_total cy Hy) as [ky Hky].
        left. exists (kx, ky). split; [ exists cx, cy; split; assumption |].
        rewrite assign_y_direction_eq, Hky. reflexivity.
      * rewrite assign_y_direction_eq, (set_DTT_type_default cy Hy).
        eexists; reflexivity.
    + rewrite assign_x_direction_eq, (set_DTT_type_default cx Hx).
      eexists; reflexivity.
Qed.

(** X2: a call of the 2D gateway either completes, with exactly the four
    calls of one fused transform (an output array of the dimensions of the
    input, one plan for the extents (NY, NX) with the kinds of two codes in
    1..8, its execution and its release), or it stops before the first of
    them. *)
Theorem dtt2D_all_or_nothing (nlhs : Z) (prhs : list mxArray)
    (tr : list event) :
  (exists A d0 d1 cx cy kx ky,
     nth_error prhs 0 = Some A /\ mxGetDimensions A = [d0; d1]
     /\ dtt1D.set_DTT_type cx = ret kx /\ dtt1D.set_DTT_type cy = ret ky
     /\ dtt2D.mexFunction nlhs prhs tr
        = (Returned tt,
           tr ++ events2D [d0; d1] (mwSize_to_int d1) (mwSize_to_int d0)
                   ky kx))
  \/ (exists msg, dtt2D.mexFunction nlhs prhs tr = (Error msg, tr))
  \/ dtt2D.mexFunction nlhs prhs tr = (Undefined, tr).
Proof.
  unfold dtt2D.mexFunction.
  destruct (negb (Z.of_nat (List.length prhs) =? 2)) eqn:En;
    [ right; left; eexists; reflexivity |].
  destruct (negb (nlhs =? 1));
    [ right; left; eexists; reflexivity |].
  mex_simpl.
  destruct prhs as [|A [|T rest]];
    [ discriminate En | discriminate En |].
  rewrite (element_found (A :: T :: rest) 1 T eq_refl), bind_ret.
  destruct (negb (mxIsDouble T && negb (mxIsComplex T)));
    [ right; left; eexists; reflexivity |].
  mex_simpl.
  destruct (assign_DTT_types_quiet (mxGetPr T) (mxGetNumberOfElements T) tr)
    as [([kx ky] & (cx & cy & Hkx & Hky) & HR) | [(msg & HR) | HR]];
    [ rewrite (bind_returned _ _ _ _ _ HR)
    | right; left; exists msg; apply (bind_failed _ _ _ _ _ HR)
    | right; right; apply (bind_undefined _ _ _ _ HR) ].
  cbn [fst snd] in *.
  rewrite (element_found (A :: T :: rest) 0 A eq_refl), bind_ret.
  destruct (negb (mxIsDouble A && negb (mxIsComplex A)));
    [ right; left; eexists; reflexivity |].
  mex_simpl.
  unfold mxGetNumberOfDimensions, mxGetDimensions.
  destruct (dimensions A) as [|d0 [|d1 [|d2 ds]]] eqn:Edims.
  - right; left. eexists; reflexivity.
  - right; left. eexists; reflexivity.
  - change (negb (Z.of_nat (List.length [d0; d1]) =? 2)) with false.
    rewrite (element_found [d0; d1] 0 d0 eq_refl).
    rewrite (element_found [d0; d1] 1 d1 eq_refl).
    mex_simpl.
    left. exists A, d0, d1, cx, cy, kx, ky.
    repeat (split; [ first [ reflexivity | assumption ] |]).
    unfold call, events2D. rewrite <- !app_assoc. reflexivity.
  - assert (Hd : negb (Z.of_nat (List.length (d0 :: d1 :: d2 :: ds)) =? 2)
                 = true).
    { apply negb_true_iff, Z.eqb_neq. cbn [List.length]. lia. }
    rewrite Hd. right; left. eexists; reflexivity.
Qed.

Lemma offset_decomposition_unique (N b j b' j' : Z) :
  0 <= j < N -> 0 <= j' < N ->
  b * N + j = b' * N + j' -> b = b' /\ j = j'.
Proof.
  intros Hj Hj' H.
  assert (Hd : (b - b') * N = j' - j) by lia.
  assert (Hb : b = b').
  { destruct (Z.lt_trichotomy b b') as [Hlt|[Heq|Hgt]]; [| exact Heq |].
    - assert (Hle : (b - b') * N <= -1 * N)
        by (apply Z.mul_le_mono_nonneg_r; lia).
      lia.
    - assert (Hge : 1 * N <= (b - b') * N)
        by (apply Z.mul_le_mono_nonneg_r; lia).
      lia. }
  subst b'. split; [ reflexivity | lia ].
Qed.

(** X3: for every shape with NX, NY >= 1 and either DIM, the resolved plan
    splits the buffer among its transforms: each offset below NX*NY is sample
    [j] of instance [b] for exactly one pair [(b, j)] with [b < howmany] and
    [j < n[0]].  No element is left out and none is transformed twice; this
    covers single rows and single columns as well. *)
Theorem resolve_partitions_buffer (NX NY DIM o : Z) :
  1 <= NX -> 1 <= NY -> DIM = 1 \/ DIM = 2 ->
  0 <= o < NX * NY ->
  exists g,
    resolve NX NY DIM = ret g
    /\ (exists b j,
          0 <= b < dtt1D.howmany g /\ 0 <= j < dtt1D.n0 g
          /\ o = b * dtt1D.idist g + j * dtt1D.istride g)
    /\ (forall b j b' j',
          0 <= b < dtt1D.howmany g -> 0 <= j < dtt1D.n0 g ->
          0 <= b' < dtt1D.howmany g -> 0 <= j' < dtt1D.n0 g ->
          b * dtt1D.idist g + j * dtt1D.istride g
          = b' * dtt1D.idist g + j' * dtt1D.istride g ->
          b = b' /\ j = j').
Proof.
  intros HX HY HDIM Ho. unfold resolve.
  assert (Hdiv : 0 <= o / NX < NY).
  { split; [ apply Z.div_pos; lia |].
    apply Z.div_lt_upper_bound; lia. }
  assert (Hmod : 0 <= o mod NX < NX) by (apply Z.mod_pos_bound; lia).
  assert (Heq : o = NX * (o / NX) + o mod NX) by (apply Z.div_mod; lia).
  destruct (force_DIM_valid NX NY DIM HDIM) as [E|E]; rewrite E;
    eexists; (split; [ reflexivity |]);
    cbn [dtt1D.n0 dtt1D.howmany dtt1D.idist dtt1D.istride]; split.
  - exists (o / NX), (o mod NX). repeat split; lia.
  - intros b j b' j' Hb Hj Hb' Hj' H.
    apply (offset_decomposition_unique NX b j b' j'); lia.
  - exists (o mod NX), (o / NX). repeat split; lia.
  - intros b j b' j' Hb Hj Hb' Hj' H.
    destruct (offset_decomposition_unique NX j b j' b'); lia.
Qed.

Lemma resolve_partitions_buffer_witness :
  exists g,
    resolve 3 4 2 = ret g
    /\ (exists b j,
          0 <= b < dtt1D.howmany g /\ 0 <= j < dtt1D.n0 g
          /\ 7 = b * dtt1D.idist g + j * dtt1D.istride g).
Proof.
  destruct (resolve_partitions_buffer 3 4 2 7) as (g & Hg & Hex & _);
    [ lia | lia | right; reflexivity | lia |].
  exists g. split; assumption.
Defined.

(** X4: leaving DIM out is the same as passing DIM = 1, for every input and
    every DTT type argument, accepted or not. *)
Theorem dtt1D_default_DIM (nlhs : Z) (A T : mxArray) (tr : list event) :
  dtt1D.mexFunction nlhs [A; T] tr
  = dtt1D.mexFunction nlhs [A; T; scalar (int_to_double 1)] tr.
Proof.
  unfold dtt1D.mexFunction.
  change (Z.of_nat (List.length [A; T])) with 2.
  change (Z.of_nat (List.length [A; T; scalar (int_to_double 1)])) with 3.
  change (negb ((2 =? 2) || (2 =? 3))) with false.
  change (negb ((3 =? 2) || (3 =? 3))) with false.
  cbv iota.
  apply bind_cong; intros _ tr1.
  rewrite (element_found [A; T] 1 T eq_refl).
  rewrite (element_found [A; T; scalar (int_to_double 1)] 1 T eq_refl).
  rewrite !bind_ret.
  destruct (mxIsDouble T && negb (mxIsComplex T)
            && (mxGetNumberOfElements T =? 1)) eqn:ET;
    [| reflexivity ].
  mex_simpl.
  apply bind_cong; intros v tr2.
  apply bind_cong; intros DTT_type tr3.
  apply bind_cong; intros _ tr4.
  apply andb_true_iff in ET. destruct ET as [ET _].
  apply bind_cong_l.
  unfold dtt1D.read_DIM.
  change (2 =? 3) with false. change (3 =? 3) with true. cbv iota.
  rewrite (element_found [A; T; scalar (int_to_double 1)] 1 T eq_refl).
  rewrite (element_found [A; T; scalar (int_to_double 1)] 2 _ eq_refl).
  rewrite !bind_ret.
  change (mxGetNumberOfElements (scalar (int_to_double 1)) =? 1) with true.
  rewrite ET. reflexivity.
Qed.

Lemma read_DIM_truncation (A T D : mxArray) (l' : list double)
    (nrhs DIM0 : Z) (tr : list event) :
  map double_to_int (pr D) = map double_to_int l' ->
  dtt1D.read_DIM [A; T; D] nrhs DIM0 tr
  = dtt1D.read_DIM [A; T; with_pr D l'] nrhs DIM0 tr.
Proof.
  intros H. unfold dtt1D.read_DIM.
  destruct (nrhs =? 3); [| reflexivity ].
  rewrite (element_found [A; T; D] 1 T eq_refl).
  rewrite (element_found [A; T; with_pr D l'] 1 T eq_refl).
  rewrite (element_found [A; T; D] 2 D eq_refl).
  rewrite (element_found [A; T; with_pr D l'] 2 _ eq_refl).
  rewrite !bind_ret.
  apply bind_cong; intros _ tr1.
  apply (read_code_cong (pr D) l' 0 _ tr1 H).
Qed.

(** X5: the 1D gateway converts the DIM argument to [int] before it tests
    its value, and depends on its storage through that conversion only: two
    DIM arguments whose doubles have the same integral parts give the same
    run.  DIM = 2.9 is DIM = 2. *)
Theorem dtt1D_DIM_truncated (nlhs : Z) (A T D : mxArray)
    (l' : list double) (tr : list event) :
  map double_to_int (pr D) = map double_to_int l' ->
  dtt1D.mexFunction nlhs [A; T; D] tr
  = dtt1D.mexFunction nlhs [A; T; with_pr D l'] tr.
Proof.
  intros H. unfold dtt1D.mexFunction.
  change (List.length [A; T; with_pr D l']) with (List.length [A; T; D]).
  apply bind_cong; intros _ tr1.
  rewrite (element_found [A; T; D] 1 T eq_refl).
  rewrite (element_found [A; T; with_pr D l'] 1 T eq_refl).
  rewrite !bind_ret.
  apply bind_cong; intros _ tr2.
  apply bind_cong; intros v tr3.
  apply bind_cong; intros DTT_type tr4.
  apply bind_cong; intros _ tr5.
  apply bind_cong_l.
  apply read_DIM_truncation. exact H.
Qed.

Lemma dtt1D_DIM_truncated_witness :
  run (dtt1D.mexFunction 1 [matrix 3 4 []; scalar d2_0; scalar d2_9])
  = run (dtt1D.mexFunction 1 [matrix 3 4 []; scalar d2_0; scalar d2_0]).
Proof.
  apply (dtt1D_DIM_truncated 1 (matrix 3 4 []) (scalar d2_0) (scalar d2_9)
           [d2_0] []).
  reflexivity.
Defined.

(** X6: for a row vector or a column vector the DIM argument has no effect
    once it is 1 or 2: the gateway plans a single transform over the whole
    vector, of length [n], with stride 1. *)
Theorem dtt1D_vector_ignores_DIM (A T D : mxArray) (n c d : Z)
    (k : fftw_r2r_kind) (tr : list event) :
  mxIsDouble A = true -> mxIsComplex A = false ->
  0 <= n <= INT_MAX ->
  mxIsDouble T = true -> mxIsComplex T = false ->
  mxGetNumberOfElements T = 1 ->
  holds_code T 0 c -> dtt1D.set_DTT_type c = ret k ->
  mxGetNumberOfElements D = 1 -> holds_code D 0 d -> d = 1 \/ d = 2 ->
  (mxGetDimensions A = [1; n] ->
   dtt1D.mexFunction 1 [A; T; D] tr
   = (Returned tt,
      tr ++ events1D [1; n]
              {| dtt1D.n0 := n; dtt1D.howmany := 1;
                 dtt1D.idist := 1; dtt1D.odist := 1;
                 dtt1D.istride := 1; dtt1D.ostride := 1 |} k))
  /\ (mxGetDimensions A = [n; 1] ->
      dtt1D.mexFunction 1 [A; T; D] tr
      = (Returned tt,
         tr ++ events1D [n; 1]
                 {| dtt1D.n0 := n; dtt1D.howmany := 1;
                    dtt1D.idist := n; dtt1D.odist := n;
                    dtt1D.istride := 1; dtt1D.ostride := 1 |} k)).
Proof.
  intros HAd HAc Hn HTd HTc HTn Hc Hk HDn Hd Hd12.
  assert (HR : dtt1D.read_DIM [A; T; D]
                 (Z.of_nat (List.length [A; T; D])) 1 tr = (Returned d, tr)).
  { change (Z.of_nat (List.length [A; T; D])) with 3.
    rewrite (read_DIM_given A T D 1 d tr HTd HTc HDn Hd).
    destruct Hd12; subst d; reflexivity. }
  assert (H1 : mwSize_to_int 1 = 1) by reflexivity.
  split; intros Hdims;
    apply (dtt1D_completes A T [D] c d _ _ k _ tr); auto;
    rewrite H1, (mwSize_to_int_small n Hn).
  - reflexivity.
  - unfold dtt1D.force_DIM. destruct (n =? 1) eqn:En.
    + apply Z.eqb_eq in En. subst n. reflexivity.
    + reflexivity.
Qed.

Lemma dtt1D_vector_ignores_DIM_witness :
  run (dtt1D.mexFunction 1 [matrix 1 5 []; scalar d3_0; scalar d2_0])
  = (Returned tt,
     events1D [1; 5]
       {| dtt1D.n0 := 5; dtt1D.howmany := 1;
          dtt1D.idist := 1; dtt1D.odist := 1;
          dtt1D.istride := 1; dtt1D.ostride := 1 |} FFTW_REDFT01).
Proof.
  assert (Hn : 0 <= 5 <= INT_MAX) by (unfold INT_MAX; lia).
  assert (Hc : holds_code (scalar d3_0) 0 3)
    by (exists d3_0; split; reflexivity).
  assert (Hd : holds_code (scalar d2_0) 0 2)
    by (exists d2_0; split; reflexivity).
  exact (proj1 (dtt1D_vector_ignores_DIM (matrix 1 5 []) (scalar d3_0)
                  (scalar d2_0) 5 3 2 FFTW_REDFT01 []
                  eq_refl eq_refl Hn eq_refl eq_refl eq_refl Hc eq_refl
                  eq_refl Hd (or_intror eq_refl))
               eq_refl).
Defined.

(** With an accepted DTT type, a failure while DIM is read is the failure
    of the call. *)
Lemma dtt1D_DIM_failure (A T : mxArray) (rest : list mxArray) (c : Z)
    (msg : string) (tr : list event) :
  (List.length rest <= 1)%nat ->
  mxIsDouble T = true -> mxIsComplex T = false ->
  mxGetNumberOfElements T = 1 -> holds_code T 0 c -> 1 <= c <= 8 ->
  dtt1D.read_DIM (A :: T :: rest)
    (Z.of_nat (List.length (A :: T :: rest))) 1 tr = (Error msg, tr) ->
  dtt1D.mexFunction 1 (A :: T :: rest) tr = (Error msg, tr).
Proof.
  intros Hlen HTd HTc HTn (v & Hv & Hc) Hrange HR.
  unfold dtt1D.mexFunction.
  rewrite (argument_count_1D A T rest Hlen).
  change (negb (1 =? 1)) with false.
  rewrite (element_found (A :: T :: rest) 1 T eq_refl).
  mex_simpl. rewrite HTd, HTc, HTn. change (1 =? 1) with true.
  mex_simpl. rewrite (element_found _ _ _ Hv). mex_simpl.
  rewrite Hc. mex_simpl.
  rewrite (check_DTT_type_valid c Hrange). mex_simpl.
  apply (bind_failed _ _ _ _ _ HR).
Qed.

(** X7: with an accepted DTT type, a DIM argument that does not have exactly
    one element is refused with the message for the type of DIM, and one
    whose value converts to anything but 1 or 2 is refused with the message
    for its value.  Both happen before the input array is looked at: DIM = 3
    is refused for a vector too, where DIM is not used. *)
Theorem dtt1D_DIM_refused (A T D : mxArray) (c : Z) (tr : list event) :
  mxIsDouble T = true -> mxIsComplex T = false ->
  mxGetNumberOfElements T = 1 -> holds_code T 0 c -> 1 <= c <= 8 ->
  (mxGetNumberOfElements D <> 1 ->
   dtt1D.mexFunction 1 [A; T; D] tr = (Error DIM_type_message, tr))
  /\ (forall d,
        mxGetNumberOfElements D = 1 -> holds_code D 0 d ->
        d <> 1 -> d <> 2 ->
        dtt1D.mexFunction 1 [A; T; D] tr = (Error InvalidAxis, tr)).
Proof.
  intros HTd HTc HTn Hc Hrange.
  assert (Hlen : (List.length [D] <= 1)%nat) by (cbn [List.length]; lia).
  split.
  - intros HDn.
    apply (dtt1D_DIM_failure A T [D] c _ tr Hlen HTd HTc HTn Hc Hrange).
    change (Z.of_nat (List.length [A; T; D])) with 3.
    unfold dtt1D.read_DIM. change (3 =? 3) with true. cbv iota.
    rewrite (element_found [A; T; D] 1 T eq_refl).
    rewrite (element_found [A; T; D] 2 D eq_refl).
    mex_simpl. rewrite HTd, HTc.
    apply Z.eqb_neq in HDn. rewrite HDn. mex_simpl. reflexivity.
  - intros d HDn Hd H1 H2.
    apply (dtt1D_DIM_failure A T [D] c _ tr Hlen HTd HTc HTn Hc Hrange).
    change (Z.of_nat (List.length [A; T; D])) with 3.
    rewrite (read_DIM_given A T D 1 d tr HTd HTc HDn Hd).
    apply Z.eqb_neq in H1. apply Z.eqb_neq in H2. rewrite H1, H2.
    reflexivity.
Qed.

Lemma dtt1D_DIM_refused_witness :
  run (dtt1D.mexFunction 1
         [matrix 1 5 []; scalar d2_0; scalar (int_to_double 3)])
  = (Error InvalidAxis, [])
  /\ run (dtt1D.mexFunction 1
            [matrix 3 4 []; scalar d2_0; row_vector [d2_0; d2_0]])
     = (Error DIM_type_message, []).
Proof.
  assert (Hc : holds_code (scalar d2_0) 0 2)
    by (exists d2_0; split; reflexivity).
  assert (Hd : holds_code (scalar (int_to_double 3)) 0 3)
    by (exists (int_to_double 3); split; reflexivity).
  assert (Hr : 1 <= 2 <= 8) by lia.
  split.
  - refine (proj2 (dtt1D_DIM_refused (matrix 1 5 []) (scalar d2_0)
                     (scalar (int_to_double 3)) 2 []
                     eq_refl eq_refl eq_refl Hc Hr) 3 eq_refl Hd _ _);
      discriminate.
  - refine (proj1 (dtt1D_DIM_refused (matrix 3 4 []) (scalar d2_0)
                     (row_vector [d2_0; d2_0]) 2 []
                     eq_refl eq_refl eq_refl Hc Hr) _).
    discriminate.
Defined.

Lemma assign_DTT_types_scalar_pair (v : double) (p1 p2 : list double)
    (tr : list event) :
  dtt2D.assign_DTT_types (v :: p1) 1 tr
  = dtt2D.assign_DTT_types (v :: v :: p2) 2 tr.
Proof.
  unfold dtt2D.assign_DTT_types.
  change (1 =? 1) with true. change (2 =? 1) with false.
  change (2 =? 2) with true. cbv iota.
  rewrite (element_found (v :: p1) 0 v eq_refl).
  rewrite (element_found (v :: v :: p2) 0 v eq_refl).
  rewrite (element_found (v :: v :: p2) 1 v eq_refl).
  rewrite !bind_ret.
  destruct (double_to_int v) as [c|] eqn:Ec; [| reflexivity ].
  mex_simpl.
  rewrite assign_scalar_eq.
  change (dtt2D.assign_x_direction c) with (dtt1D.set_DTT_type c).
  destruct (Z_lt_ge_dec c 1) as [Hlo|Hlo];
    [ rewrite set_DTT_type_default by lia; reflexivity |].
  destruct (Z_lt_ge_dec 8 c) as [Hhi|Hhi];
    [ rewrite set_DTT_type_default by lia; reflexivity |].
  destruct (set_DTT_type_total c) as [k Hk]; [ lia |].
  rewrite Hk. mex_simpl. rewrite Ec. mex_simpl.
  change (dtt2D.assign_y_direction c) with (dtt1D.set_DTT_type c).
  rewrite Hk. reflexivity.
Qed.

(** X8: in the 2D gateway a scalar DTT type is the pair that repeats it:
    the call with one stored code [v] and the call with the two codes
    [v, v] give the same run, whether [v] is accepted or not. *)
Theorem dtt2D_scalar_is_pair (nlhs : Z) (A T1 T2 : mxArray) (v : double)
    (p1 p2 : list double) (tr : list event) :
  classID T1 = classID T2 -> complexity T1 = complexity T2 ->
  mxGetNumberOfElements T1 = 1 -> mxGetNumberOfElements T2 = 2 ->
  pr T1 = v :: p1 -> pr T2 = v :: v :: p2 ->
  dtt2D.mexFunction nlhs [A; T1] tr = dtt2D.mexFunction nlhs [A; T2] tr.
Proof.
  intros Hcls Hcx Hn1 Hn2 Hp1 Hp2. unfold dtt2D.mexFunction.
  change (List.length [A; T2]) with (List.length [A; T1]).
  apply bind_cong; intros _ tr1.
  rewrite (element_found [A; T1] 1 T1 eq_refl).
  rewrite (element_found [A; T2] 1 T2 eq_refl).
  rewrite !bind_ret.
  unfold mxIsDouble, mxIsComplex, mxGetPr.
  rewrite Hcls, Hcx, Hn1, Hn2, Hp1, Hp2.
  apply bind_cong; intros _ tr2.
  apply bind_cong_l. apply assign_DTT_types_scalar_pair.
Qed.

Lemma dtt2D_scalar_is_pair_witness :
  run (dtt2D.mexFunction 1 [matrix 3 4 []; scalar d3_0])
  = run (dtt2D.mexFunction 1 [matrix 3 4 []; row_vector [d3_0; d3_0]]).
Proof.
  exact (dtt2D_scalar_is_pair 1 (matrix 3 4 []) (scalar d3_0)
           (row_vector [d3_0; d3_0]) d3_0 [] [] []
           eq_refl eq_refl eq_refl eq_refl eq_refl eq_refl).
Defined.

(** X9: the number of inputs is tested first and the number of outputs
    second, before any argument is looked at.  The 1D gateway takes two or
    three inputs, the 2D gateway exactly two, and both exactly one output;
    with both counts wrong the message is the one about the inputs. *)
Theorem argument_counts (nlhs : Z) (prhs : list mxArray) (tr : list event) :
  (List.length prhs <> 2%nat -> List.length prhs <> 3%nat ->
   dtt1D.mexFunction nlhs prhs tr
   = (Error "Two or three inputs are required.", tr))
  /\ (List.length prhs = 2%nat \/ List.length prhs = 3%nat -> nlhs <> 1 ->
      dtt1D.mexFunction nlhs prhs tr
      = (Error "One output is required.", tr))
  /\ (List.length prhs <> 2%nat ->
      dtt2D.mexFunction nlhs prhs tr
      = (Error "Two inputs are required.", tr))
  /\ (List.length prhs = 2%nat -> nlhs <> 1 ->
      dtt2D.mexFunction nlhs prhs tr
      = (Error "One output is required.", tr)).
Proof.
  split; [| split; [| split ]].
  - intros H2 H3. unfold dtt1D.mexFunction.
    assert (E : negb ((Z.of_nat (List.length prhs) =? 2)
                      || (Z.of_nat (List.length prhs) =? 3)) = true).
    { apply negb_true_iff, orb_false_intro; apply Z.eqb_neq; lia. }
    rewrite E. reflexivity.
  - intros Hlen Hn. unfold dtt1D.mexFunction.
    assert (E : negb ((Z.of_nat (List.length prhs) =? 2)
                      || (Z.of_nat (List.length prhs) =? 3)) = false).
    { apply negb_false_iff, orb_true_iff.
      destruct Hlen as [Hl|Hl]; rewrite Hl; [ left | right ]; reflexivity. }
    rewrite E. apply Z.eqb_neq in Hn. rewrite Hn. reflexivity.
  - intros H2. unfold dtt2D.mexFunction.
    assert (E : negb (Z.of_nat (List.length prhs) =? 2) = true).
    { apply negb_true_iff, Z.eqb_neq. lia. }
    rewrite E. reflexivity.
  - intros Hlen Hn. unfold dtt2D.mexFunction.
    rewrite Hlen. change (negb (Z.of_nat 2 =? 2)) with false.
    apply Z.eqb_neq in Hn. rewrite Hn. reflexivity.
Qed.

Lemma argument_counts_witness :
  run (dtt1D.mexFunction 0 [matrix 3 4 []])
  = (Error "Two or three inputs are required.", [])
  /\ run (dtt1D.mexFunction 2 [matrix 3 4 []; scalar d2_0])
     = (Error "One output is required.", [])
  /\ run (dtt2D.mexFunction 1 [matrix 3 4 []; scalar d2_0; scalar d2_0])
     = (Error "Two inputs are required.", [])
  /\ run (dtt2D.mexFunction 0 [matrix 3 4 []; scalar d2_0])
     = (Error "One output is required.", []).
Proof.
  split; [| split; [| split ]].
  - refine (proj1 (argument_counts 0 [matrix 3 4 []] []) _ _);
      discriminate.
  - refine (proj1 (proj2 (argument_counts 2
                            [matrix 3 4 []; scalar d2_0] [])) _ _);
      [ left; reflexivity | discriminate ].
  - refine (proj1 (proj2 (proj2 (argument_counts 1
              [matrix 3 4 []; scalar d2_0; scalar d2_0] []))) _).
    discriminate.
  - refine (proj2 (proj2 (proj2 (argument_counts 0
              [matrix 3 4 []; scalar d2_0] []))) _ _);
      [ reflexivity | discriminate ].
Defined.

(** X10: what each gateway asks of the DTT type argument before it reads
    it.  The 1D gateway refuses an argument that is not a double, is complex,
    or does not have exactly one element; the 2D gateway refuses one that is
    not a double or is complex, and leaves the element count to the choice of
    the kinds.  A pair of codes, which the 2D gateway takes, is refused by
    the 1D gateway. *)
Theorem DTT_type_argument_refused (A T : mxArray) (rest : list mxArray)
    (tr : list event) :
  (List.length rest <= 1)%nat ->
  (mxIsDouble T = false \/ mxIsComplex T = true
   \/ mxGetNumberOfElements T <> 1 ->
   dtt1D.mexFunction 1 (A :: T :: rest) tr
   = (Error
        "Input for DTT_TYPE must be real, scalar, and double precision.",
      tr))
  /\ (mxIsDouble T = false \/ mxIsComplex T = true ->
      dtt2D.mexFunction 1 [A; T] tr
      = (Error "Input for DTT_TYPE must be real, and double precision.",
         tr)).
Proof.
  intros Hlen. split.
  - intros H. unfold dtt1D.mexFunction.
    rewrite (argument_count_1D A T rest Hlen).
    change (negb (1 =? 1)) with false.
    rewrite (element_found (A :: T :: rest) 1 T eq_refl).
    mex_simpl.
    assert (E : mxIsDouble T && negb (mxIsComplex T)
                && (mxGetNumberOfElements T =? 1) = false).
    { destruct H as [H|[H|H]].
      - rewrite H. reflexivity.
      - rewrite H. apply andb_false_intro1, andb_false_intro2. reflexivity.
      - apply Z.eqb_neq in H. rewrite H. apply andb_false_r. }
    rewrite E. mex_simpl. reflexivity.
  - intros H. unfold dtt2D.mexFunction.
    change (negb (Z.of_nat (List.length [A; T]) =? 2)) with false.
    change (negb (1 =? 1)) with false.
    rewrite (element_found [A; T] 1 T eq_refl).
    mex_simpl.
    assert (E : mxIsDouble T && negb (mxIsComplex T) = false).
    { destruct H as [H|H]; rewrite H;
        [ reflexivity | apply andb_false_r ]. }
    rewrite E. mex_simpl. reflexivity.
Qed.

Lemma DTT_type_argument_refused_witness :
  run (dtt1D.mexFunction 1 [matrix 3 4 []; row_vector [d2_0; d3_0]])
  = (Error "Input for DTT_TYPE must be real, scalar, and double precision.",
     []).
Proof.
  refine (proj1 (DTT_type_argument_refused (matrix 3 4 [])
                   (row_vector [d2_0; d3_0]) [] [] _) _).
  - cbn [List.length]. lia.
  - right; right. discriminate.
Defined.

(** X11: with an accepted scalar DTT type, an input array that is not a
    double or is complex is refused by both gateways, and so is one with more
    than two dimensions (the 2D gateway asks for exactly two).  Nothing has
    been allocated by then. *)
Theorem input_array_refused (A T : mxArray) (c : Z) (tr : list event) :
  mxIsDouble T = true -> mxIsComplex T = false ->
  mxGetNumberOfElements T = 1 -> holds_code T 0 c -> 1 <= c <= 8 ->
  (mxIsDouble A = false \/ mxIsComplex A = true ->
   dtt1D.mexFunction 1 [A; T] tr
   = (Error "Input array must be double precision and real.", tr)
   /\ dtt2D.mexFunction 1 [A; T] tr
      = (Error "Input array must be double precision and real.", tr))
  /\ (mxIsDouble A = true -> mxIsComplex A = false ->
      (2 < List.length (mxGetDimensions A))%nat ->
      dtt1D.mexFunction 1 [A; T] tr
      = (Error "Input array must be 1D or 2D.", tr)
      /\ dtt2D.mexFunction 1 [A; T] tr
         = (Error "Input array must be 2D.", tr)).
Proof.
  intros HTd HTc HTn Hcode Hrange.
  destruct (set_DTT_type_total c Hrange) as [k Hk].
  assert (H1D : forall r,
            (error_if (negb (mxIsDouble A && negb (mxIsComplex A)))
               "Input array must be double precision and real." ;;;
             error_if (mxGetNumberOfDimensions A >? 2)
               "Input array must be 1D or 2D." ;;;
             ret tt) tr = (r, tr) ->
            forall msg, r = Error msg ->
            dtt1D.mexFunction 1 [A; T] tr = (Error msg, tr)).
  { intros r Hr msg ->. destruct Hcode as (v & Hv & Hc).
    unfold dtt1D.mexFunction.
    change (Z.of_nat (List.length [A; T])) with 2.
    change (negb ((2 =? 2) || (2 =? 3))) with false.
    change (negb (1 =? 1)) with false.
    rewrite (element_found [A; T] 1 T eq_refl).
    mex_simpl. rewrite HTd, HTc, HTn. change (1 =? 1) with true.
    mex_simpl. rewrite (element_found _ _ _ Hv). mex_simpl.
    rewrite Hc. mex_simpl.
    rewrite (check_DTT_type_valid c Hrange). mex_simpl.
    rewrite read_DIM_absent. mex_simpl.
    rewrite (element_found [A; T] 0 A eq_refl). mex_simpl.
    destruct (negb (mxIsDouble A && negb (mxIsComplex A)));
      mex_simpl; [ exact Hr |].
    destruct (mxGetNumberOfDimensions A >? 2);
      mex_simpl; [ exact Hr | discriminate Hr ]. }
  assert (H2D : forall r,
            (error_if (negb (mxIsDouble A && negb (mxIsComplex A)))
               "Input array must be double precision and real." ;;;
             error_if (negb (mxGetNumberOfDimensions A =? 2))
               "Input array must be 2D." ;;;
             ret tt) tr = (r, tr) ->
            forall msg, r = Error msg ->
            dtt2D.mexFunction 1 [A; T] tr = (Error msg, tr)).
  { intros r Hr msg ->.
    rewrite (dtt2D_types A T tr HTd HTc), HTn.
    rewrite (bind_returned _ _ _ _ _
               (assign_DTT_types_scalar _ c k tr Hcode Hk)).
    destruct (negb (mxIsDouble A && negb (mxIsComplex A)));
      mex_simpl; [ exact Hr |].
    destruct (negb (mxGetNumberOfDimensions A =? 2));
      mex_simpl; [ exact Hr | discriminate Hr ]. }
  split.
  - intros HA.
    assert (E : mxIsDouble A && negb (mxIsComplex A) = false).
    { destruct HA as [H|H]; rewrite H;
        [ reflexivity | apply andb_false_r ]. }
    split; [ eapply H1D | eapply H2D ];
      try reflexivity; rewrite E; reflexivity.
  - intros HAd HAc Hdims.
    assert (E1 : (mxGetNumberOfDimensions A >? 2) = true).
    { apply Z.gtb_lt. unfold mxGetNumberOfDimensions, mxGetDimensions in *.
      lia. }
    assert (E2 : negb (mxGetNumberOfDimensions A =? 2) = true).
    { apply negb_true_iff, Z.eqb_neq.
      unfold mxGetNumberOfDimensions, mxGetDimensions in *. lia. }
    split; [ eapply H1D | eapply H2D ];
      try reflexivity; rewrite HAd, HAc;
      [ rewrite E1 | rewrite E2 ]; reflexivity.
Qed.

Lemma input_array_refused_witness :
  run (dtt1D.mexFunction 1
         [ {| classID := mxDOUBLE_CLASS; complexity := false;
              dimensions := [2; 3; 4]; pr := [] |}; scalar d2_0 ])
  = (Error "Input array must be 1D or 2D.", [])
  /\ run (dtt2D.mexFunction 1
            [ {| classID := mxDOUBLE_CLASS; complexity := false;
                 dimensions := [2; 3; 4]; pr := [] |}; scalar d2_0 ])
     = (Error "Input array must be 2D.", []).
Proof.
  assert (Hc : holds_code (scalar d2_0) 0 2)
    by (exists d2_0; split; reflexivity).
  assert (Hr : 1 <= 2 <= 8) by lia.
  refine (proj2 (input_array_refused
                   {| classID := mxDOUBLE_CLASS; complexity := false;
                      dimensions := [2; 3; 4]; pr := [] |}
                   (scalar d2_0) 2 [] eq_refl eq_refl eq_refl Hc Hr)
            eq_refl eq_refl _).
  cbn [mxGetDimensions dimensions List.length]. lia.
Defined.


